(** * classifiers_evaluation.py: ellipse geometry, loss tracking and figures

    A shallow embedding of [src/classifiers_evaluation.py].  NumPy arrays of
    floating-point numbers are read as lists of real numbers ([R]), so every
    statement below is about the arithmetic the program writes down, not about
    binary64 rounding.  Plotly figures are records holding the traces that the
    program adds, in the order it adds them. *)

From Stdlib Require Import Reals Lra Lia List String Bool Arith ZArith.
Import ListNotations.
Open Scope string_scope.
Open Scope list_scope.
Open Scope R_scope.

(** ** NumPy and math collaborators *)

Module Np.

(** A 2x2 array, entry [mIJ] being [cov[I, J]]. *)
Record Matrix2 : Type := mkMatrix2 { m00 : R; m01 : R; m10 : R; m11 : R }.

Definition symmetric (c : Matrix2) : Prop := m01 c = m10 c.

(** [np.diag(v)] for a vector of length 2. *)
Definition diag (v : R * R) : Matrix2 := mkMatrix2 (fst v) 0 0 (snd v).

(** [np.linalg.eigvalsh(a)]: eigenvalues in ascending order, read from the
    lower triangle of [a] (the default [UPLO='L']). *)
Definition eigvalsh (c : Matrix2) : list R :=
  let s := sqrt ((m00 c - m11 c) * (m00 c - m11 c) + 4 * (m10 c * m10 c)) in
  [ (m00 c + m11 c - s) / 2 ; (m00 c + m11 c + s) / 2 ].

(** [l] is a root of the characteristic polynomial of [c]. *)
Definition is_eigenvalue (c : Matrix2) (l : R) : Prop :=
  (m00 c - l) * (m11 c - l) - m01 c * m10 c = 0.

(** [np.linspace(start, stop, num)], endpoint included. *)
Definition linspace (start stop : R) (num : nat) : list R :=
  let step := (stop - start) / INR (num - 1) in
  map (fun i => start + INR i * step) (seq 0 num).

(** [np.arange(n)] *)
Definition arange (n : nat) : list R := map INR (seq 0 n).

End Np.

Module Math.

(** [math.atan2(y, x)] on reals: the angle of the point [(x, y)]. *)
Definition atan2 (y x : R) : R :=
  if Rlt_dec 0 x then atan (y / x)
  else if Rlt_dec x 0 then
    (if Rle_dec 0 y then atan (y / x) + PI else atan (y / x) - PI)
  else if Rlt_dec 0 y then PI / 2
  else if Rlt_dec y 0 then - (PI / 2)
  else 0.

End Math.

(** ** Plotly collaborators *)

Module Go.

Inductive Color : Type :=
| Named (c : string)
| PerPoint (values : list R).

Record Marker : Type := mkMarker {
  color : option Color;
  symbol : option string
}.

(** [go.Scatter(x=..., y=..., mode=..., name=..., marker=...)] *)
Record Scatter : Type := mkScatter {
  x : list R;
  y : list R;
  mode : string;
  name : option string;
  marker : Marker
}.

Definition points (s : Scatter) : list (R * R) := combine (x s) (y s).

End Go.

(** ** get_ellipse *)

(** [l1, l2 = tuple(np.linalg.eigvalsh(cov)[::-1])] *)
Definition ellipse_axes (cov : Np.Matrix2) : R * R :=
  match rev (Np.eigvalsh cov) with
  | l1 :: l2 :: _ => (l1, l2)
  | _ => (0, 0)
  end.

(** [theta = atan2(l1 - cov[0, 0], cov[0, 1]) if cov[0, 1] != 0
            else (np.pi / 2 if cov[0, 0] < cov[1, 1] else 0)] *)
Definition ellipse_theta (cov : Np.Matrix2) : R :=
  let l1 := fst (ellipse_axes cov) in
  if Req_dec_T (Np.m01 cov) 0 then
    (if Rlt_dec (Np.m00 cov) (Np.m11 cov) then PI / 2 else 0)
  else Math.atan2 (l1 - Np.m00 cov) (Np.m01 cov).

Definition ellipse_xs (l1 l2 theta : R) (t : list R) : list R :=
  map (fun ti => (l1 * cos theta * cos ti) - (l2 * sin theta * sin ti)) t.

Definition ellipse_ys (l1 l2 theta : R) (t : list R) : list R :=
  map (fun ti => (l1 * sin theta * cos ti) + (l2 * cos theta * sin ti)) t.

(** The part of [get_ellipse] after [theta] has been chosen. *)
Definition ellipse_trace (mu : R * R) (l1 l2 theta : R) : Go.Scatter :=
  let t := Np.linspace 0 (2 * PI) 100 in
  let xs := ellipse_xs l1 l2 theta t in
  let ys := ellipse_ys l1 l2 theta t in
  Go.mkScatter (map (fun v => fst mu + v) xs) (map (fun v => snd mu + v) ys)
               "lines" None (Go.mkMarker (Some (Go.Named "black")) None).

Definition get_ellipse (mu : R * R) (cov : Np.Matrix2) : Go.Scatter :=
  let '(l1, l2) := ellipse_axes cov in
  let theta := ellipse_theta cov in
  ellipse_trace mu l1 l2 theta.

(** The point of the curve at parameter [ti], as [mu[0] + xs] and
    [mu[1] + ys] give it. *)
Definition ellipse_point (mu : R * R) (l1 l2 theta ti : R) : R * R :=
  (fst mu + (l1 * cos theta * cos ti - l2 * sin theta * sin ti),
   snd mu + (l1 * sin theta * cos ti + l2 * cos theta * sin ti)).

(** Euclidean distance between two points of the plane. *)
Definition distance (p q : R * R) : R :=
  sqrt ((fst p - fst q) * (fst p - fst q) + (snd p - snd q) * (snd p - snd q)).

(** [p] moved by the vector [d]. *)
Definition shift (d p : R * R) : R * R := (fst p + fst d, snd p + snd d).

(** ** Figures *)

Module Fig.

Record Layout : Type := mkLayout {
  title : option string;
  xaxis_title : option string;
  yaxis_title : option string;
  legend_title : option string;
  width : option nat;
  height : option nat;
  showlegend : option bool
}.

(** A figure: its subplot grid and the traces added so far, oldest first,
    each with the [(row, col)] cell it was added to (if one was given). *)
Record Figure : Type := mkFigure {
  rows : nat;
  cols : nat;
  subplot_titles : list string;
  data : list (Go.Scatter * option (nat * nat));
  layout : Layout;
  yaxes_scaleanchor : option string;
  yaxes_scaleratio : option nat
}.

Definition empty_layout : Layout :=
  mkLayout None None None None None None None.

(** [make_subplots(rows=r, cols=c, subplot_titles=ts)]; called with no
    argument it makes a 1x1 grid without titles. *)
Definition make_subplots (r c : nat) (ts : list string) : Figure :=
  mkFigure r c ts [] empty_layout None None.

Definition with_data (fig : Figure) (d : list (Go.Scatter * option (nat * nat)))
  : Figure :=
  mkFigure (rows fig) (cols fig) (subplot_titles fig) d (layout fig)
           (yaxes_scaleanchor fig) (yaxes_scaleratio fig).

(** [fig.add_trace(trace)] and [fig.add_trace(trace, row=r, col=c)] *)
Definition add_trace (fig : Figure) (tr : Go.Scatter) (cell : option (nat * nat))
  : Figure :=
  with_data fig (data fig ++ [(tr, cell)]).

(** [fig.add_traces(traces, rows=rs, cols=cs)] *)
Definition add_traces (fig : Figure) (trs : list Go.Scatter) (rs cs : list nat)
  : Figure :=
  with_data fig (data fig ++ combine trs (map Some (combine rs cs))).

(** [fig.update_yaxes(scaleanchor=a, scaleratio=k)] *)
Definition update_yaxes (fig : Figure) (a : string) (k : nat) : Figure :=
  mkFigure (rows fig) (cols fig) (subplot_titles fig) (data fig) (layout fig)
           (Some a) (Some k).

Definition with_layout (fig : Figure) (l : Layout) : Figure :=
  mkFigure (rows fig) (cols fig) (subplot_titles fig) (data fig) l
           (yaxes_scaleanchor fig) (yaxes_scaleratio fig).

Definition cell_eqb (a : option (nat * nat)) (r c : nat) : bool :=
  match a with
  | Some (r', c') => Nat.eqb r' r && Nat.eqb c' c
  | None => false
  end.

(** The traces shown in the panel at row [r], column [c], oldest first. *)
Definition panel (fig : Figure) (r c : nat) : list Go.Scatter :=
  map fst (filter (fun e => cell_eqb (snd e) r c) (data fig)).

End Fig.

(** ** The external collaborators and the effects of the script *)

(** One row of a dataset file of shape [(n_samples, 3)]. *)
Definition Row : Type := (R * R * R)%type.

(** [data[:, :-1]] and [data[:, :2]] *)
Definition features (data : list Row) : list (R * R) := map fst data.

(** [data[:, -1]] and [data[:, 2]] *)
Definition last_column (data : list Row) : list R := map snd data.

(** Fitted attributes of [LDA]: [mu_] (one row per class) and [cov_]. *)
Record LDA : Type := mkLDA {
  lda_mu_ : list (R * R);
  lda_cov_ : Np.Matrix2
}.

(** Fitted attributes of [GaussianNaiveBayes]: [mu_] and [vars_], one row per
    class each. *)
Record GaussianNaiveBayes : Type := mkGNB {
  gnb_mu_ : list (R * R);
  gnb_vars_ : list (R * R)
}.

(** What the script relies on from [np.load], [IMLearn.learners.classifiers]
    and [IMLearn.metrics].  [perceptron_iterations X y] lists, in order, the
    calls [callback(self, x_i, y_i)] that [Perceptron.fit(X, y)] makes: the
    estimator state at that moment and the sample handed over. *)
Class Collaborators : Type := {
  np_load : string -> list Row;
  Perceptron : Type;
  perceptron_iterations :
    list (R * R) -> list R -> list (Perceptron * (R * R) * R);
  perceptron_loss : Perceptron -> list (R * R) -> list R -> R;
  lda_fit : list (R * R) -> list R -> LDA;
  lda_predict : LDA -> list (R * R) -> list R;
  gnb_fit : list (R * R) -> list R -> GaussianNaiveBayes;
  gnb_predict : GaussianNaiveBayes -> list (R * R) -> list R;
  accuracy : list R -> list R -> R
}.

(** A call that leaves the script, with the arguments it carries. *)
Inductive Call : Type :=
| Call_np_load (path : string)
| Call_Perceptron_fit (X : list (R * R)) (y : list R)
| Call_Perceptron_loss (X : list (R * R)) (y : list R)
| Call_LDA_fit (X : list (R * R)) (y : list R)
| Call_LDA_predict (X : list (R * R))
| Call_GNB_fit (X : list (R * R)) (y : list R)
| Call_GNB_predict (X : list (R * R))
| Call_accuracy (y_true y_pred : list R)
| Call_write_image (fig : Fig.Figure) (path : string).

(** The label vector a call carries as its [y] argument, if it has one. *)
Definition labels_of (c : Call) : option (list R) :=
  match c with
  | Call_Perceptron_fit _ y | Call_Perceptron_loss _ y
  | Call_LDA_fit _ y | Call_GNB_fit _ y => Some y
  | Call_accuracy y_true _ => Some y_true
  | _ => None
  end.

(** Program state: the calls made so far (oldest first) and the list bound to
    [losses], which the callback of [run_perceptron] appends to. *)
Record State : Type := mkState {
  trace : list Call;
  losses : list R
}.

Inductive Exception : Type := IndexError.

Inductive Outcome (A : Type) : Type :=
| Done (a : A)
| Raised (e : Exception).
Arguments Done {A} a.
Arguments Raised {A} e.

(** State and exception monad: a raised exception keeps the state reached. *)
Definition M (A : Type) : Type := State -> Outcome A * State.

Definition ret {A} (a : A) : M A := fun s => (Done a, s).

Definition bind {A B} (m : M A) (k : A -> M B) : M B :=
  fun s => match m s with
           | (Done a, s') => k a s'
           | (Raised e, s') => (Raised e, s')
           end.

Declare Scope monad_scope.
Delimit Scope monad_scope with monad.
Notation "x <- m ;; k" := (bind m (fun x => k))
  (at level 61, m at next level, right associativity) : monad_scope.
Notation "m ;; k" := (bind m (fun _ => k))
  (at level 61, right associativity) : monad_scope.
Open Scope monad_scope.

Definition raise {A} (e : Exception) : M A := fun s => (Raised e, s).

Definition emit (c : Call) : M unit :=
  fun s => (Done tt, mkState (trace s ++ [c]) (losses s)).

Definition set_losses (l : list R) : M unit :=
  fun s => (Done tt, mkState (trace s) l).

Definition get_losses : M (list R) := fun s => (Done (losses s), s).

(** [a[i]] for a non-negative [i]: out of range raises [IndexError]. *)
Definition getitem {A} (a : list A) (i : nat) : M A :=
  match nth_error a i with
  | Some v => ret v
  | None => raise IndexError
  end.

(** [for v in l: body(v)] *)
Fixpoint for_each {A} (l : list A) (body : A -> M unit) : M unit :=
  match l with
  | [] => ret tt
  | v :: l' => body v ;; for_each l' body
  end.

(** [for v in l: acc = body(acc, v)] *)
Fixpoint for_fold {A B} (l : list A) (body : B -> A -> M B) (acc : B) : M B :=
  match l with
  | [] => ret acc
  | v :: l' => acc' <- body acc v ;; for_fold l' body acc'
  end.

(** The range of NumPy's [int64], the type that [int] names in [astype]. *)
Definition int64_min : Z := (- 2 ^ 63)%Z.

Definition int64_max : Z := (2 ^ 63 - 1)%Z.

(** The integer part of [r], rounded toward zero. *)
Definition truncate (r : R) : Z :=
  if Rle_dec 0 r then Int_part r else (- Int_part (- r))%Z.

(** [x.astype(int)] on one entry: the entry truncated toward zero when that
    fits in [int64]; an entry out of range converts to the smallest [int64]. *)
Definition astype_int (r : R) : Z :=
  let k := truncate r in
  if ((int64_min <=? k) && (k <=? int64_max))%Z then k else int64_min.

Section Script.

Context {C : Collaborators}.

(** [np.load(path)] for a dataset file that is present and well formed: the
    call is recorded and the stored array returned.  What [np.load] raises on
    a missing or malformed file is not modelled, so a statement below that a
    pipeline completes is about runs whose files load. *)
Definition load (path : string) : M (list Row) :=
  emit (Call_np_load path) ;; ret (np_load path).

Definition load_dataset (filename : string) : M (list (R * R) * list Z) :=
  data <- load filename ;;
  ret (features data, map astype_int (last_column data)).

(** [estimator.loss(X, y)] *)
Definition Perceptron_loss (estimator : Perceptron) (X : list (R * R))
           (y : list R) : M R :=
  emit (Call_Perceptron_loss X y) ;; ret (perceptron_loss estimator X y).

(** [Perceptron(callback=callback).fit(X, y)] *)
Definition Perceptron_fit (callback : Perceptron -> R * R -> R -> M unit)
           (X : list (R * R)) (y : list R) : M unit :=
  emit (Call_Perceptron_fit X y) ;;
  for_each (perceptron_iterations X y)
           (fun it => callback (fst (fst it)) (snd (fst it)) (snd it)).

Definition LDA_fit (X : list (R * R)) (y : list R) : M LDA :=
  emit (Call_LDA_fit X y) ;; ret (lda_fit X y).

Definition LDA_predict (m : LDA) (X : list (R * R)) : M (list R) :=
  emit (Call_LDA_predict X) ;; ret (lda_predict m X).

Definition GNB_fit (X : list (R * R)) (y : list R) : M GaussianNaiveBayes :=
  emit (Call_GNB_fit X y) ;; ret (gnb_fit X y).

Definition GNB_predict (m : GaussianNaiveBayes) (X : list (R * R))
  : M (list R) :=
  emit (Call_GNB_predict X) ;; ret (gnb_predict m X).

Definition Accuracy (y_true y_pred : list R) : M R :=
  emit (Call_accuracy y_true y_pred) ;; ret (accuracy y_true y_pred).

Definition write_image (fig : Fig.Figure) (path : string) : M unit :=
  emit (Call_write_image fig path).

(** *** run_perceptron *)

(** The closure [loss_callback], with [X] and [y] captured. *)
Definition loss_callback (X : list (R * R)) (y : list R)
           (estimator : Perceptron) (_ : R * R) (__ : R) : M unit :=
  a <- Perceptron_loss estimator X y ;;
  l <- get_losses ;;
  set_losses (l ++ [a]).

(** The line trace of the training curve. *)
Definition loss_trace (losses : list R) (n : string) : Go.Scatter :=
  Go.mkScatter (Np.arange (List.length losses)) losses "lines" (Some n)
               (Go.mkMarker None None).

Definition perceptron_layout : Fig.Layout :=
  Fig.mkLayout (Some "Perceptron Training Loss Progression")
               (Some "Iteration") (Some "Training Loss") (Some "Dataset")
               None None None.

Definition run_perceptron_on (n f : string) : M unit :=
  data <- load ("../datasets/" ++ f)%string ;;
  let X := features data in
  let y := last_column data in
  set_losses [] ;;
  Perceptron_fit (loss_callback X y) X y ;;
  losses <- get_losses ;;
  let fig := Fig.make_subplots 1 1 [] in
  let fig := Fig.add_trace fig (loss_trace losses n) None in
  let fig := Fig.with_layout fig perceptron_layout in
  write_image fig ("perceptron_fit_" ++ n ++ ".png")%string.

Definition run_perceptron : M unit :=
  for_each [("Linearly Separable", "linearly_separable.npy");
            ("Linearly Inseparable", "linearly_inseparable.npy")]
           (fun nf => run_perceptron_on (fst nf) (snd nf)).

(** *** compare_gaussian_classifiers *)

(** [f[:-4]] *)
Definition drop_last4 (f : string) : string :=
  substring 0 (String.length f - 4) f.

(** The scatter of the samples, coloured by [y]. *)
Definition data_points (X : list (R * R)) (y : list R) : Go.Scatter :=
  Go.mkScatter (map fst X) (map snd X) "markers" (Some "Data Points")
               (Go.mkMarker (Some (Go.PerPoint y)) (Some "circle")).

(** The fitted means, as black crosses. *)
Definition means_trace (mu_ : list (R * R)) (n : string) : Go.Scatter :=
  Go.mkScatter (map fst mu_) (map snd mu_) "markers" (Some n)
               (Go.mkMarker (Some (Go.Named "black")) (Some "x")).

(** One turn of [for i in range(3)]. *)
Definition add_ellipses (gaussian_naive_bayes : GaussianNaiveBayes) (lda : LDA)
           (fig : Fig.Figure) (i : nat) : M Fig.Figure :=
  mu_g <- getitem (gnb_mu_ gaussian_naive_bayes) i ;;
  vars_g <- getitem (gnb_vars_ gaussian_naive_bayes) i ;;
  mu_l <- getitem (lda_mu_ lda) i ;;
  ret (Fig.add_traces fig
         [get_ellipse mu_g (Np.diag vars_g); get_ellipse mu_l (lda_cov_ lda)]
         [1; 1]%nat [1; 2]%nat).

Definition comparison_layout (f : string) : Fig.Layout :=
  Fig.mkLayout
    (Some ("$\text{Comparing Gaussian Classifiers - " ++ drop_last4 f
           ++ " dataset}$")%string)
    None None None (Some 1000%nat) (Some 500%nat) (Some false).

Definition compare_gaussian_classifiers_on (f : string) : M unit :=
  data <- load ("../datasets/" ++ f)%string ;;
  let X := features data in
  let y := last_column data in
  lda <- LDA_fit X y ;;
  lda_prediction <- LDA_predict lda X ;;
  gaussian_naive_bayes <- GNB_fit X y ;;
  gaussian_naive_bayes_prediction <- GNB_predict gaussian_naive_bayes X ;;
  lda_accuracy <- Accuracy y lda_prediction ;;
  gaussian_naive_bayes_accuracy <- Accuracy y gaussian_naive_bayes_prediction ;;
  let fig := Fig.make_subplots 1 2 ["Gaussian Naive Bayes"; "LDA"] in
  let fig := Fig.add_trace fig (data_points X y) (Some (1, 1)%nat) in
  let fig := Fig.add_trace fig (data_points X y) (Some (1, 2)%nat) in
  let means_lda := lda_mu_ lda in
  let means_gaussian_naive_bayes := gnb_mu_ gaussian_naive_bayes in
  let fig := Fig.add_trace fig
               (means_trace means_gaussian_naive_bayes
                            "Gaussian Naive Bayes Means")
               (Some (1, 1)%nat) in
  let fig := Fig.add_trace fig (means_trace means_lda "LDA Means")
                           (Some (1, 2)%nat) in
  fig <- for_fold (seq 0 3) (add_ellipses gaussian_naive_bayes lda) fig ;;
  let fig := Fig.update_yaxes fig "x" 1 in
  let fig := Fig.with_layout fig (comparison_layout f) in
  write_image fig ("lda_and_gaussian_naive_bayes_comparison." ++ drop_last4 f
                   ++ ".png")%string.

Definition compare_gaussian_classifiers : M unit :=
  for_each ["gaussian1.npy"; "gaussian2.npy"] compare_gaussian_classifiers_on.

(** The script's entry point, after [np.random.seed(0)]. *)
Definition main : M unit :=
  run_perceptron ;; compare_gaussian_classifiers.

End Script.

Definition initial_state : State := mkState [] [].

(** ** Notions used in the statements *)

(** The six ellipse traces that three turns of the overlay loop add, in the
    order they are added, when every index is in range. *)
Definition ellipse_overlay (gaussian_naive_bayes : GaussianNaiveBayes)
           (lda : LDA) : list (Go.Scatter * option (nat * nat)) :=
  flat_map
    (fun i =>
       [(get_ellipse (nth i (gnb_mu_ gaussian_naive_bayes) (0, 0))
                     (Np.diag (nth i (gnb_vars_ gaussian_naive_bayes) (0, 0))),
         Some (1, 1)%nat);
        (get_ellipse (nth i (lda_mu_ lda) (0, 0)) (lda_cov_ lda),
         Some (1, 2)%nat)])
    (seq 0 3).

(** The figure of the comparison before the ellipses are added. *)
Definition comparison_base (X : list (R * R)) (y : list R)
           (gaussian_naive_bayes : GaussianNaiveBayes) (lda : LDA)
  : Fig.Figure :=
  Fig.add_trace
    (Fig.add_trace
       (Fig.add_trace
          (Fig.add_trace
             (Fig.make_subplots 1 2 ["Gaussian Naive Bayes"; "LDA"])
             (data_points X y) (Some (1, 1)%nat))
          (data_points X y) (Some (1, 2)%nat))
       (means_trace (gnb_mu_ gaussian_naive_bayes) "Gaussian Naive Bayes Means")
       (Some (1, 1)%nat))
    (means_trace (lda_mu_ lda) "LDA Means") (Some (1, 2)%nat).

(** The calls a comparison makes before it builds its figure. *)
Definition comparison_calls {C : Collaborators} (f : string) : list Call :=
  let data := np_load ("../datasets/" ++ f) in
  let X := features data in
  let y := last_column data in
  let lda := lda_fit X y in
  let gaussian_naive_bayes := gnb_fit X y in
  [Call_np_load ("../datasets/" ++ f);
   Call_LDA_fit X y; Call_LDA_predict X;
   Call_GNB_fit X y; Call_GNB_predict X;
   Call_accuracy y (lda_predict lda X);
   Call_accuracy y (gnb_predict gaussian_naive_bayes X)].

(** The figure a comparison writes when the ellipse loop completes. *)
Definition comparison_figure {C : Collaborators} (f : string) : Fig.Figure :=
  let data := np_load ("../datasets/" ++ f) in
  let X := features data in
  let y := last_column data in
  let lda := lda_fit X y in
  let gaussian_naive_bayes := gnb_fit X y in
  let base := comparison_base X y gaussian_naive_bayes lda in
  Fig.with_layout
    (Fig.update_yaxes
       (Fig.with_data base (Fig.data base
                            ++ ellipse_overlay gaussian_naive_bayes lda))
       "x" 1)
    (comparison_layout f).

(** A call either carries no label vector or carries exactly [y]. *)
Definition carries_labels (y : list R) (c : Call) : Prop :=
  match labels_of c with
  | Some y' => y' = y
  | None => True
  end.

(** Collaborators for worked examples: three samples, and fitted models that
    expose [k] classes. *)
Definition sample_collaborators (k : nat) : Collaborators := {|
  np_load := fun _ => [(0, 0, 0); (5, 5, 1); (10, 0, 2)];
  Perceptron := unit;
  perceptron_iterations := fun _ _ => [(tt, (0, 0), 0); (tt, (5, 5), 1)];
  perceptron_loss := fun _ _ _ => 0;
  lda_fit := fun _ _ => mkLDA (repeat (0, 0) k) (Np.mkMatrix2 2 1 1 2);
  lda_predict := fun _ X => map (fun _ => 0) X;
  gnb_fit := fun _ _ => mkGNB (repeat (0, 0) k) (repeat (1, 4) k);
  gnb_predict := fun _ X => map (fun _ => 0) X;
  accuracy := fun _ _ => 1
|}.

(** The ellipse curves among the traces of a panel: [get_ellipse] draws in
    mode [lines], the data points and the means in mode [markers]. *)
Definition ellipses_in (traces : list Go.Scatter) : list Go.Scatter :=
  filter (fun tr => String.eqb (Go.mode tr) "lines") traces.

(** The images written so far, oldest first: figure and file name. *)
Definition written (tr : list Call) : list (Fig.Figure * string) :=
  flat_map (fun c => match c with
                     | Call_write_image fig path => [(fig, path)]
                     | _ => []
                     end) tr.

(** The files read so far, oldest first. *)
Definition loaded (tr : list Call) : list string :=
  flat_map (fun c => match c with
                     | Call_np_load path => [path]
                     | _ => []
                     end) tr.

(** Whether the fitted models have rows 0, 1 and 2 in every array that the
    overlay loop indexes. *)
Definition three_rows (gaussian_naive_bayes : GaussianNaiveBayes) (lda : LDA)
  : bool :=
  (3 <=? List.length (gnb_mu_ gaussian_naive_bayes))%nat
  && (3 <=? List.length (gnb_vars_ gaussian_naive_bayes))%nat
  && (3 <=? List.length (lda_mu_ lda))%nat.

(** The fitted models of the comparison of the dataset file [f]. *)
Definition fitted_gnb {C : Collaborators} (f : string) : GaussianNaiveBayes :=
  let data := np_load ("../datasets/" ++ f) in
  gnb_fit (features data) (last_column data).

Definition fitted_lda {C : Collaborators} (f : string) : LDA :=
  let data := np_load ("../datasets/" ++ f) in
  lda_fit (features data) (last_column data).

(** The coordinates of [p] in the frame centred at [mu] whose first axis
    makes the angle [theta] with the x-axis. *)
Definition in_frame (mu : R * R) (theta : R) (p : R * R) : R * R :=
  ((fst p - fst mu) * cos theta + (snd p - snd mu) * sin theta,
   - (fst p - fst mu) * sin theta + (snd p - snd mu) * cos theta).

(** The losses that the callback records while the Perceptron is fitted on
    the dataset file [f]. *)
Definition recorded_losses {C : Collaborators} (f : string) : list R :=
  let data := np_load ("../datasets/" ++ f) in
  let X := features data in
  let y := last_column data in
  map (fun it => perceptron_loss (fst (fst it)) X y) (perceptron_iterations X y).

(** The figure that [run_perceptron] writes for the dataset [f], named [n]. *)
Definition perceptron_figure {C : Collaborators} (n f : string) : Fig.Figure :=
  Fig.with_layout
    (Fig.add_trace (Fig.make_subplots 1 1 [])
                   (loss_trace (recorded_losses f) n) None)
    perceptron_layout.

(** The calls of [run_perceptron] for the dataset [f], named [n]. *)
Definition perceptron_calls {C : Collaborators} (n f : string) : list Call :=
  let data := np_load ("../datasets/" ++ f) in
  let X := features data in
  let y := last_column data in
  [Call_np_load ("../datasets/" ++ f); Call_Perceptron_fit X y]
  ++ map (fun _ => Call_Perceptron_loss X y) (perceptron_iterations X y)
  ++ [Call_write_image (perceptron_figure n f)
                       ("perceptron_fit_" ++ n ++ ".png")].

(** The calls of the comparison of the dataset [f]: the image is written only
    when the overlay loop has its three rows. *)
Definition comparison_trace {C : Collaborators} (f : string) : list Call :=
  comparison_calls f
  ++ (if three_rows (fitted_gnb f) (fitted_lda f)
      then [Call_write_image
              (comparison_figure f)
              ("lda_and_gaussian_naive_bayes_comparison." ++ drop_last4 f
               ++ ".png")]
      else []).

(** How a run ends: normally, or with [IndexError]. *)
Definition outcome_of (ok : bool) : Outcome unit :=
  if ok then Done tt else Raised IndexError.

(** * Properties *)

(** ** math.atan2 is the polar angle *)

Lemma atan_nonpos (z : R) : z <= 0 -> atan z <= 0.
Proof.
  intros [H | ->]; [| rewrite atan_0; lra].
  pose proof (atan_increasing z 0 H) as Hi. rewrite atan_0 in Hi. lra.
Qed.

Lemma atan_pos (z : R) : 0 < z -> 0 < atan z.
Proof.
  intros H. pose proof (atan_increasing 0 z H) as Hi. now rewrite atan_0 in Hi.
Qed.

Lemma atan2_range (y x : R) : - PI < Math.atan2 y x <= PI.
Proof.
  pose proof PI_RGT_0 as Hpi. pose proof (atan_bound (y / x)) as Hb.
  unfold Math.atan2.
  destruct (Rlt_dec 0 x) as [Hx | Hx]; [lra |].
  destruct (Rlt_dec x 0) as [Hx' | Hx'].
  - destruct (Rle_dec 0 y) as [Hy | Hy].
    + assert (y / x <= 0).
      { unfold Rdiv. assert (/ x < 0) by now apply Rinv_lt_0_compat. nra. }
      pose proof (atan_nonpos _ H). lra.
    + assert (0 < y / x).
      { unfold Rdiv. assert (/ x < 0) by now apply Rinv_lt_0_compat. nra. }
      pose proof (atan_pos _ H). lra.
  - destruct (Rlt_dec 0 y); [lra |]. destruct (Rlt_dec y 0); lra.
Qed.

Lemma polar_radius (x y : R) :
  x <> 0 -> sqrt (x * x + y * y) = Rabs x * sqrt (1 + (y / x)²).
Proof.
  intros Hx. rewrite <- sqrt_Rsqr_abs, <- sqrt_mult_alt by apply Rle_0_sqr.
  f_equal. unfold Rsqr. field. exact Hx.
Qed.

Lemma sqrt_one_plus_sqr_pos (z : R) : 0 < sqrt (1 + z²).
Proof. apply sqrt_lt_R0. pose proof (Rle_0_sqr z). lra. Qed.

Lemma atan2_polar (y x : R) :
  x <> 0 \/ y <> 0 ->
  x = sqrt (x * x + y * y) * cos (Math.atan2 y x) /\
  y = sqrt (x * x + y * y) * sin (Math.atan2 y x).
Proof.
  intros Hxy. unfold Math.atan2.
  pose proof (sqrt_one_plus_sqr_pos (y / x)) as Hu.
  destruct (Rlt_dec 0 x) as [Hx | Hx].
  - rewrite polar_radius, cos_atan, sin_atan, Rabs_right by lra.
    split; field; lra.
  - destruct (Rlt_dec x 0) as [Hx' | Hx'].
    + assert (Hc : cos (atan (y / x) - PI) = cos (atan (y / x) + PI))
        by (rewrite cos_minus, neg_cos, cos_PI, sin_PI; ring).
      assert (Hs : sin (atan (y / x) - PI) = sin (atan (y / x) + PI))
        by (rewrite sin_minus, neg_sin, cos_PI, sin_PI; ring).
      assert (Hgoal : x = sqrt (x * x + y * y) * cos (atan (y / x) + PI) /\
                      y = sqrt (x * x + y * y) * sin (atan (y / x) + PI)).
      { rewrite neg_cos, neg_sin, polar_radius, cos_atan, sin_atan,
          Rabs_left by lra.
        split; field; lra. }
      destruct (Rle_dec 0 y); [exact Hgoal |].
      rewrite Hc, Hs. exact Hgoal.
    + assert (x = 0) by lra. subst x.
      replace (0 * 0 + y * y) with (Rsqr y) by (unfold Rsqr; ring).
      rewrite sqrt_Rsqr_abs.
      destruct (Rlt_dec 0 y) as [Hy | Hy].
      * rewrite cos_PI2, sin_PI2, Rabs_right by lra. lra.
      * destruct (Rlt_dec y 0) as [Hy' | Hy']; [| lra].
        rewrite cos_neg, sin_neg, cos_PI2, sin_PI2, Rabs_left by lra. lra.
Qed.

(** ** Eigenvalues of a 2x2 symmetric matrix *)

Lemma ellipse_axes_eq (cov : Np.Matrix2) :
  let s := sqrt ((Np.m00 cov - Np.m11 cov) * (Np.m00 cov - Np.m11 cov)
                 + 4 * (Np.m10 cov * Np.m10 cov)) in
  ellipse_axes cov =
  ((Np.m00 cov + Np.m11 cov + s) / 2, (Np.m00 cov + Np.m11 cov - s) / 2).
Proof. reflexivity. Qed.

Lemma discriminant_nonneg (a b d : R) : 0 <= (a - d) * (a - d) + 4 * (b * b).
Proof.
  pose proof (Rle_0_sqr (a - d)) as H1; pose proof (Rle_0_sqr b) as H2.
  unfold Rsqr in *; lra.
Qed.

Lemma ellipse_axes_ordered (cov : Np.Matrix2) :
  snd (ellipse_axes cov) <= fst (ellipse_axes cov).
Proof.
  rewrite ellipse_axes_eq; cbn [fst snd].
  pose proof (sqrt_pos ((Np.m00 cov - Np.m11 cov) * (Np.m00 cov - Np.m11 cov)
                        + 4 * (Np.m10 cov * Np.m10 cov))).
  lra.
Qed.

Lemma ellipse_axes_eigen (cov : Np.Matrix2) :
  Np.symmetric cov ->
  Np.is_eigenvalue cov (fst (ellipse_axes cov)) /\
  Np.is_eigenvalue cov (snd (ellipse_axes cov)).
Proof.
  destruct cov as [a b c d]; unfold Np.symmetric, Np.is_eigenvalue.
  rewrite ellipse_axes_eq; cbn [fst snd Np.m00 Np.m01 Np.m10 Np.m11].
  intros ->.
  pose proof (sqrt_sqrt _ (discriminant_nonneg a c d)) as Hs.
  set (s := sqrt _) in *.
  split; nra.
Qed.

Lemma ellipse_axes_complete (cov : Np.Matrix2) (l : R) :
  Np.symmetric cov ->
  Np.is_eigenvalue cov l ->
  l = fst (ellipse_axes cov) \/ l = snd (ellipse_axes cov).
Proof.
  destruct cov as [a b c d]; unfold Np.symmetric, Np.is_eigenvalue.
  rewrite ellipse_axes_eq; cbn [fst snd Np.m00 Np.m01 Np.m10 Np.m11].
  intros -> Hl.
  pose proof (sqrt_sqrt _ (discriminant_nonneg a c d)) as Hs.
  set (s := sqrt _) in *.
  assert (H : (l - (a + d + s) / 2) * (l - (a + d - s) / 2) = 0) by nra.
  apply Rmult_integral in H; destruct H; [left | right]; lra.
Qed.

Example ellipse_axes_example : ellipse_axes (Np.mkMatrix2 2 1 1 2) = (3, 1).
Proof.
  rewrite ellipse_axes_eq; cbn [Np.m00 Np.m10 Np.m11].
  replace ((2 - 2) * (2 - 2) + 4 * (1 * 1)) with (2 * 2) by ring.
  rewrite sqrt_square by lra. f_equal; lra.
Qed.

(** ** The branches of theta *)

Lemma ellipse_theta_off_diagonal (cov : Np.Matrix2) :
  Np.m01 cov <> 0 ->
  ellipse_theta cov =
  Math.atan2 (fst (ellipse_axes cov) - Np.m00 cov) (Np.m01 cov).
Proof.
  intros H; unfold ellipse_theta.
  destruct (Req_dec_T (Np.m01 cov) 0); [contradiction | reflexivity].
Qed.

Lemma ellipse_theta_diagonal_lt (cov : Np.Matrix2) :
  Np.m01 cov = 0 -> Np.m00 cov < Np.m11 cov -> ellipse_theta cov = PI / 2.
Proof.
  intros H0 Hlt; unfold ellipse_theta.
  destruct (Req_dec_T (Np.m01 cov) 0); [| contradiction].
  destruct (Rlt_dec (Np.m00 cov) (Np.m11 cov)); [reflexivity | contradiction].
Qed.

Lemma ellipse_theta_diagonal_ge (cov : Np.Matrix2) :
  Np.m01 cov = 0 -> ~ Np.m00 cov < Np.m11 cov -> ellipse_theta cov = 0.
Proof.
  intros H0 Hge; unfold ellipse_theta.
  destruct (Req_dec_T (Np.m01 cov) 0); [| contradiction].
  destruct (Rlt_dec (Np.m00 cov) (Np.m11 cov)); [contradiction | reflexivity].
Qed.

(** ** The sampled parameter *)

Lemma linspace_length (a b : R) (n : nat) : List.length (Np.linspace a b n) = n.
Proof. unfold Np.linspace. now rewrite length_map, length_seq. Qed.

Lemma linspace_nth (a b : R) (n i : nat) :
  (i < n)%nat ->
  nth i (Np.linspace a b n) 0 = a + INR i * ((b - a) / INR (n - 1)).
Proof.
  intros Hi; unfold Np.linspace.
  set (f := fun k : nat => a + INR k * ((b - a) / INR (n - 1))).
  rewrite (nth_indep _ 0 (f 0%nat)) by now rewrite length_map, length_seq.
  rewrite map_nth, seq_nth by assumption.
  reflexivity.
Qed.

Lemma linspace_first (a b : R) (n : nat) :
  (0 < n)%nat -> nth 0 (Np.linspace a b n) 0 = a.
Proof. intros H. rewrite linspace_nth by assumption. simpl. lra. Qed.

Lemma linspace_last (a b : R) (n : nat) :
  (1 < n)%nat -> nth (n - 1) (Np.linspace a b n) 0 = b.
Proof.
  intros H. rewrite linspace_nth by lia.
  assert (INR (n - 1) <> 0) by (apply not_0_INR; lia).
  field; assumption.
Qed.

(** ** The points of the curve *)

Lemma combine_map_map {A B D} (f : A -> B) (g : A -> D) (l : list A) :
  combine (map f l) (map g l) = map (fun v => (f v, g v)) l.
Proof. induction l as [| v l IH]; simpl; [reflexivity | now rewrite IH]. Qed.

Lemma ellipse_trace_points (mu : R * R) (l1 l2 theta : R) :
  Go.points (ellipse_trace mu l1 l2 theta) =
  map (ellipse_point mu l1 l2 theta) (Np.linspace 0 (2 * PI) 100).
Proof.
  unfold Go.points, ellipse_trace, ellipse_xs, ellipse_ys; cbn [Go.x Go.y].
  rewrite !map_map. apply combine_map_map.
Qed.

Lemma get_ellipse_unfold (mu : R * R) (cov : Np.Matrix2) :
  get_ellipse mu cov =
  ellipse_trace mu (fst (ellipse_axes cov)) (snd (ellipse_axes cov))
                (ellipse_theta cov).
Proof. unfold get_ellipse. now destruct (ellipse_axes cov). Qed.

Lemma get_ellipse_points (mu : R * R) (cov : Np.Matrix2) :
  Go.points (get_ellipse mu cov) =
  map (ellipse_point mu (fst (ellipse_axes cov)) (snd (ellipse_axes cov))
                     (ellipse_theta cov))
      (Np.linspace 0 (2 * PI) 100).
Proof. rewrite get_ellipse_unfold. apply ellipse_trace_points. Qed.

Lemma nth_map_lt {A B} (f : A -> B) (l : list A) (i : nat) (da : A) (db : B) :
  (i < List.length l)%nat -> nth i (map f l) db = f (nth i l da).
Proof.
  intros Hi. rewrite (nth_indep _ db (f da)) by now rewrite length_map.
  apply map_nth.
Qed.

Lemma get_ellipse_length (mu : R * R) (cov : Np.Matrix2) :
  List.length (Go.points (get_ellipse mu cov)) = 100%nat.
Proof. rewrite get_ellipse_points, length_map. apply linspace_length. Qed.

Lemma get_ellipse_nth (mu : R * R) (cov : Np.Matrix2) (i : nat) :
  (i < 100)%nat ->
  nth i (Go.points (get_ellipse mu cov)) (0, 0) =
  ellipse_point mu (fst (ellipse_axes cov)) (snd (ellipse_axes cov))
                (ellipse_theta cov) (nth i (Np.linspace 0 (2 * PI) 100) 0).
Proof.
  intros Hi. rewrite get_ellipse_points.
  apply nth_map_lt. now rewrite linspace_length.
Qed.

(** ** Claims about get_ellipse *)

(** C1: for a symmetric 2x2 covariance, [l1] and [l2] are its two eigenvalues
    with [l2 <= l1], and the rotation angle used by [get_ellipse] is
    [atan2 (l1 - cov[0][0]) cov[0][1]] when [cov[0][1]] is not zero, [PI / 2]
    when it is zero and [cov[0][0] < cov[1][1]], and [0] otherwise. *)
Theorem get_ellipse_theta (cov : Np.Matrix2) :
  Np.symmetric cov ->
  let l1 := fst (ellipse_axes cov) in
  let l2 := snd (ellipse_axes cov) in
  let theta := ellipse_theta cov in
  (Np.is_eigenvalue cov l1 /\ Np.is_eigenvalue cov l2 /\ l2 <= l1 /\
   forall l, Np.is_eigenvalue cov l -> l = l1 \/ l = l2) /\
  (forall mu, get_ellipse mu cov = ellipse_trace mu l1 l2 theta) /\
  (Np.m01 cov <> 0 -> theta = Math.atan2 (l1 - Np.m00 cov) (Np.m01 cov)) /\
  (Np.m01 cov = 0 -> Np.m00 cov < Np.m11 cov -> theta = PI / 2) /\
  (Np.m01 cov = 0 -> ~ Np.m00 cov < Np.m11 cov -> theta = 0).
Proof.
  intros Hsym l1 l2 theta.
  destruct (ellipse_axes_eigen cov Hsym) as [H1 H2].
  split; [split; [| split; [| split]] | split; [| split; [| split]]].
  - exact H1.
  - exact H2.
  - apply ellipse_axes_ordered.
  - intros l Hl. now apply ellipse_axes_complete.
  - intros mu. apply get_ellipse_unfold.
  - apply ellipse_theta_off_diagonal.
  - apply ellipse_theta_diagonal_lt.
  - apply ellipse_theta_diagonal_ge.
Qed.

Lemma get_ellipse_theta_witness :
  let cov := Np.mkMatrix2 2 1 1 2 in
  Np.symmetric cov /\
  ellipse_theta cov = Math.atan2 (fst (ellipse_axes cov) - 2) 1.
Proof.
  intros cov.
  assert (Hsym : Np.symmetric cov) by reflexivity.
  split; [exact Hsym |].
  destruct (get_ellipse_theta cov Hsym) as (_ & _ & Hoff & _).
  apply Hoff. simpl. lra.
Defined.

(** C2: [get_ellipse] returns 100 points; the parameter runs over 100 evenly
    spaced values from 0 to 2*PI, both ends included, and the i-th point is
    [(m[0] + l1 cos theta cos t_i - l2 sin theta sin t_i,
      m[1] + l1 sin theta cos t_i + l2 cos theta sin t_i)], with [l1 >= l2]
    the eigenvalues of the covariance and [theta] the rotation angle. *)
Theorem get_ellipse_curve (mu : R * R) (cov : Np.Matrix2) :
  Np.symmetric cov ->
  let l1 := fst (ellipse_axes cov) in
  let l2 := snd (ellipse_axes cov) in
  let theta := ellipse_theta cov in
  let t := Np.linspace 0 (2 * PI) 100 in
  let curve := get_ellipse mu cov in
  (Np.is_eigenvalue cov l1 /\ Np.is_eigenvalue cov l2 /\ l2 <= l1) /\
  (List.length (Go.x curve) = 100%nat /\ List.length (Go.y curve) = 100%nat /\
   List.length (Go.points curve) = 100%nat) /\
  (List.length t = 100%nat /\ nth 0 t 0 = 0 /\ nth 99 t 0 = 2 * PI /\
   forall i, (i < 100)%nat -> nth i t 0 = INR i * (2 * PI / 99)) /\
  forall i, (i < 100)%nat ->
    nth i (Go.points curve) (0, 0) =
    (fst mu + l1 * cos theta * cos (nth i t 0)
            - l2 * sin theta * sin (nth i t 0),
     snd mu + l1 * sin theta * cos (nth i t 0)
            + l2 * cos theta * sin (nth i t 0)).
Proof.
  intros Hsym l1 l2 theta t curve.
  destruct (ellipse_axes_eigen cov Hsym) as [H1 H2].
  split; [| split; [| split]].
  - split; [exact H1 | split; [exact H2 | apply ellipse_axes_ordered]].
  - subst curve. rewrite get_ellipse_unfold.
    unfold Go.points, ellipse_trace, ellipse_xs, ellipse_ys; cbn [Go.x Go.y].
    rewrite length_combine, !length_map, linspace_length. repeat split.
  - subst t. split; [| split; [| split]].
    + apply linspace_length.
    + apply linspace_first; lia.
    + apply (linspace_last 0 (2 * PI) 100); lia.
    + intros i Hi. rewrite linspace_nth by assumption.
      change (INR (100 - 1)) with (INR 99). rewrite (INR_IZR_INZ 99).
      simpl (IZR (Z.of_nat 99)). lra.
  - intros i Hi. subst curve. rewrite get_ellipse_nth by assumption.
    unfold ellipse_point. fold l1 l2 theta t. f_equal; lra.
Qed.

Lemma get_ellipse_curve_witness :
  let cov := Np.mkMatrix2 2 1 1 2 in
  Np.symmetric cov /\
  List.length (Go.points (get_ellipse (3, 4) cov)) = 100%nat.
Proof.
  intros cov.
  assert (Hsym : Np.symmetric cov) by reflexivity.
  split; [exact Hsym |].
  destruct (get_ellipse_curve (3, 4) cov Hsym) as (_ & (_ & _ & Hlen) & _).
  exact Hlen.
Defined.

(** *** The circle case *)

Lemma circle_axes (a : R) : ellipse_axes (Np.diag (a, a)) = (a, a).
Proof.
  rewrite ellipse_axes_eq; cbn [Np.diag Np.m00 Np.m10 Np.m11 fst snd].
  replace ((a - a) * (a - a) + 4 * (0 * 0)) with 0 by ring.
  rewrite sqrt_0. f_equal; field.
Qed.

Lemma circle_distance (mu : R * R) (a theta ti : R) :
  distance (ellipse_point mu a a theta ti) mu = Rabs a.
Proof.
  unfold distance, ellipse_point; cbn [fst snd].
  rewrite <- sqrt_Rsqr_abs. f_equal. unfold Rsqr.
  pose proof (sin2_cos2 theta) as Hth. pose proof (sin2_cos2 ti) as Hti.
  unfold Rsqr in Hth, Hti.
  replace (a * a) with
    (a * a * ((sin theta * sin theta + cos theta * cos theta)
              * (sin ti * sin ti + cos ti * cos ti)))
    by (rewrite Hth, Hti; ring).
  ring.
Qed.

Lemma circle_trace_distance (mu : R * R) (a theta : R) :
  Forall (fun p => distance p mu = Rabs a)
         (Go.points (ellipse_trace mu a a theta)).
Proof.
  rewrite ellipse_trace_points. apply Forall_forall.
  intros p Hp. apply in_map_iff in Hp. destruct Hp as (ti & <- & _).
  apply circle_distance.
Qed.

Lemma circle_get_ellipse (mu : R * R) (a : R) :
  get_ellipse mu (Np.diag (a, a)) =
  ellipse_trace mu a a (ellipse_theta (Np.diag (a, a))).
Proof. rewrite get_ellipse_unfold, circle_axes. reflexivity. Qed.

(** C3 (as the code has it): for a diagonal covariance with equal diagonal
    entries [a], both eigenvalues are [a] and all 100 points of the curve lie
    at the same distance from the mean; that distance is [Rabs a], the shared
    eigenvalue itself for [a >= 0] (not its square root), and it is the same
    whatever angle [theta] is used. *)
Theorem circle_radius_is_eigenvalue (mu : R * R) (a : R) :
  ellipse_axes (Np.diag (a, a)) = (a, a) /\
  List.length (Go.points (get_ellipse mu (Np.diag (a, a)))) = 100%nat /\
  Forall (fun p => distance p mu = Rabs a)
         (Go.points (get_ellipse mu (Np.diag (a, a)))) /\
  forall theta,
    Forall (fun p => distance p mu = Rabs a)
           (Go.points (ellipse_trace mu a a theta)).
Proof.
  split; [apply circle_axes | split; [apply get_ellipse_length | split]].
  - rewrite circle_get_ellipse. apply circle_trace_distance.
  - intros theta. apply circle_trace_distance.
Qed.

(** C3 as stated fails: for the covariance [diag (4, 4)] and mean [(0, 0)] the
    points are not at distance [sqrt 4 = 2] from the mean (they are at
    distance 4). *)
Lemma circle_radius_not_sqrt :
  ~ Forall (fun p => distance p (0, 0)
                     = sqrt (fst (ellipse_axes (Np.diag (4, 4)))))
           (Go.points (get_ellipse (0, 0) (Np.diag (4, 4)))).
Proof.
  intros Hall.
  pose proof (get_ellipse_length (0, 0) (Np.diag (4, 4))) as Hlen.
  pose proof (circle_trace_distance (0, 0) 4
                (ellipse_theta (Np.diag (4, 4)))) as Hfour.
  rewrite <- circle_get_ellipse in Hfour.
  destruct (Go.points (get_ellipse (0, 0) (Np.diag (4, 4)))) as [| p ps];
    [discriminate Hlen |].
  inversion Hall as [| ? ? Hp _]; inversion Hfour as [| ? ? Hq _]; subst.
  rewrite circle_axes in Hp; cbn [fst] in Hp.
  rewrite Hq in Hp.
  replace 4 with (2 * 2) in Hp at 2 by ring.
  rewrite sqrt_square in Hp by lra.
  rewrite Rabs_right in Hp by lra. lra.
Qed.

(** *** Translation *)

Lemma ellipse_point_shift (mu d : R * R) (l1 l2 theta ti : R) :
  ellipse_point (fst mu + fst d, snd mu + snd d) l1 l2 theta ti =
  shift d (ellipse_point mu l1 l2 theta ti).
Proof. unfold shift, ellipse_point; cbn [fst snd]. f_equal; ring. Qed.

(** C4: moving the mean by [d] moves each of the 100 points of the curve by
    exactly [d], the covariance being the same. *)
Theorem get_ellipse_translation (mu d : R * R) (cov : Np.Matrix2) :
  List.length (Go.points (get_ellipse mu cov)) = 100%nat /\
  List.length (Go.points (get_ellipse (fst mu + fst d, snd mu + snd d) cov))
  = 100%nat /\
  Go.points (get_ellipse (fst mu + fst d, snd mu + snd d) cov) =
  map (shift d) (Go.points (get_ellipse mu cov)).
Proof.
  split; [apply get_ellipse_length | split; [apply get_ellipse_length |]].
  rewrite !get_ellipse_points, map_map.
  apply map_ext. intros ti. apply ellipse_point_shift.
Qed.

(** ** The loss callback and the training curve *)

Section ScriptProperties.

Context {C : Collaborators}.

Lemma loss_callback_run X y estimator xi yi (s : State) :
  loss_callback X y estimator xi yi s =
  (Done tt, mkState (trace s ++ [Call_Perceptron_loss X y])
                    (losses s ++ [perceptron_loss estimator X y])).
Proof. reflexivity. Qed.

Lemma loss_callback_runs X y (its : list (Perceptron * (R * R) * R)) :
  forall s : State,
    for_each its (fun it => loss_callback X y (fst (fst it)) (snd (fst it))
                                          (snd it)) s =
    (Done tt,
     mkState (trace s ++ map (fun _ => Call_Perceptron_loss X y) its)
             (losses s
              ++ map (fun it => perceptron_loss (fst (fst it)) X y) its)).
Proof.
  induction its as [| it its IH]; intros s.
  - simpl. rewrite !app_nil_r. now destruct s.
  - cbn [for_each map]. unfold bind at 1.
    rewrite loss_callback_run, IH. cbn [trace losses].
    now rewrite <- !app_assoc.
Qed.

(** C5: called [k] times by the training loop, on a fresh [losses] list, the
    callback leaves a list of exactly [k] values, in the order of the calls;
    the value appended at a call is the loss of the estimator handed to that
    call over the whole training set [(X, y)], whatever sample came with
    it; entries already in the list are kept. *)
Theorem loss_callback_trace X y (its : list (Perceptron * (R * R) * R))
        (s : State) :
  let calls := for_each its (fun it => loss_callback X y (fst (fst it))
                                                     (snd (fst it)) (snd it)) in
  let values := map (fun it => perceptron_loss (fst (fst it)) X y) its in
  (exists s', (set_losses [] ;; calls) s = (Done tt, s') /\
              losses s' = values /\
              List.length (losses s') = List.length its /\
              trace s' = trace s ++ map (fun _ => Call_Perceptron_loss X y) its)
  /\
  (exists s', calls s = (Done tt, s') /\
              losses s' = losses s ++ values /\
              List.length (losses s')
              = (List.length (losses s) + List.length its)%nat).
Proof.
  intros calls values. split.
  - eexists. unfold bind, set_losses. subst calls.
    rewrite loss_callback_runs. cbn [trace losses app].
    split; [reflexivity |].
    split; [reflexivity |].
    split; [| reflexivity].
    subst values. cbn [losses]. now rewrite length_map.
  - eexists. subst calls. rewrite loss_callback_runs.
    split; [reflexivity |]. cbn [losses].
    split; [reflexivity |].
    subst values. now rewrite length_app, length_map.
Qed.

(** *** run_perceptron on one dataset *)

Lemma combine_arange_from (l : list R) :
  forall start : nat,
    combine (map INR (seq start (List.length l))) l =
    map (fun i => (INR i, nth (i - start) l 0)) (seq start (List.length l)).
Proof.
  induction l as [| a l IH]; intros start; [reflexivity |].
  cbn [List.length seq map combine].
  rewrite Nat.sub_diag. cbn [nth]. f_equal.
  rewrite IH. apply map_ext_in. intros i Hi.
  apply in_seq in Hi.
  replace (i - start)%nat with (S (i - S start)) by lia.
  reflexivity.
Qed.

Lemma run_perceptron_on_run (n f : string) (s : State) :
  let data := np_load ("../datasets/" ++ f) in
  let X := features data in
  let y := last_column data in
  let its := perceptron_iterations X y in
  let values := map (fun it => perceptron_loss (fst (fst it)) X y) its in
  let fig := Fig.with_layout
               (Fig.add_trace (Fig.make_subplots 1 1 [])
                              (loss_trace values n) None)
               perceptron_layout in
  run_perceptron_on n f s =
  (Done tt,
   mkState (trace s
            ++ [Call_np_load ("../datasets/" ++ f); Call_Perceptron_fit X y]
            ++ map (fun _ => Call_Perceptron_loss X y) its
            ++ [Call_write_image fig ("perceptron_fit_" ++ n ++ ".png")])
           values).
Proof.
  intros data X y its values fig.
  unfold run_perceptron_on, load, Perceptron_fit, write_image.
  cbv [bind emit ret set_losses get_losses]. cbn [trace losses].
  fold data X y its.
  rewrite loss_callback_runs. cbn [trace losses app].
  fold values fig. rewrite <- !app_assoc. reflexivity.
Qed.

(** C8: the training curve is one trace in mode [lines] holding exactly
    [len(losses)] points; its x-values are [0, 1, ..., len(losses) - 1] in
    order and its y-values are the losses in order.  It is the only trace of
    the figure that [run_perceptron] writes for a dataset. *)
Theorem training_curve_points (losses : list R) (n f : string) (s : State) :
  let curve := loss_trace losses n in
  (Go.mode curve = "lines" /\
   Go.x curve = map INR (seq 0 (List.length losses)) /\
   Go.y curve = losses /\
   List.length (Go.points curve) = List.length losses /\
   Go.points curve = map (fun i => (INR i, nth i losses 0))
                         (seq 0 (List.length losses))) /\
  let data := np_load ("../datasets/" ++ f) in
  let its := perceptron_iterations (features data) (last_column data) in
  let values :=
    map (fun it => perceptron_loss (fst (fst it)) (features data)
                                   (last_column data)) its in
  exists s' fig,
    run_perceptron_on n f s = (Done tt, s') /\
    last (trace s') (Call_np_load "")
    = Call_write_image fig ("perceptron_fit_" ++ n ++ ".png") /\
    Fig.data fig = [(loss_trace values n, None)].
Proof.
  intros curve. split.
  - unfold curve, loss_trace, Go.points, Np.arange; cbn [Go.mode Go.x Go.y].
    split; [reflexivity | split; [reflexivity | split; [reflexivity |]]].
    assert (Hpts : combine (map INR (seq 0 (List.length losses))) losses
                   = map (fun i => (INR i, nth i losses 0))
                         (seq 0 (List.length losses))).
    { rewrite combine_arange_from. apply map_ext.
      intros i. now rewrite Nat.sub_0_r. }
    split; [| exact Hpts].
    now rewrite Hpts, length_map, length_seq.
  - intros data its values. eexists; eexists.
    rewrite run_perceptron_on_run. split; [reflexivity |].
    cbn [trace]. rewrite !app_assoc, last_last.
    split; reflexivity.
Qed.

(** ** The ellipse overlay of the comparison *)

Lemma add_ellipses_in_range gnb lda fig (i : nat) (s : State) mu_g vars_g mu_l :
  nth_error (gnb_mu_ gnb) i = Some mu_g ->
  nth_error (gnb_vars_ gnb) i = Some vars_g ->
  nth_error (lda_mu_ lda) i = Some mu_l ->
  add_ellipses gnb lda fig i s =
  (Done (Fig.add_traces fig
           [get_ellipse mu_g (Np.diag vars_g);
            get_ellipse mu_l (lda_cov_ lda)] [1; 1]%nat [1; 2]%nat), s).
Proof.
  intros Hg Hv Hl. unfold add_ellipses, getitem, bind.
  rewrite Hg, Hv, Hl. reflexivity.
Qed.

Lemma add_ellipses_out_of_range gnb lda fig (i : nat) (s : State) :
  (List.length (gnb_mu_ gnb) <= i)%nat \/
  (List.length (gnb_vars_ gnb) <= i)%nat \/
  (List.length (lda_mu_ lda) <= i)%nat ->
  add_ellipses gnb lda fig i s = (Raised IndexError, s).
Proof.
  intros H. unfold add_ellipses, getitem, bind.
  destruct (nth_error (gnb_mu_ gnb) i) eqn:Hg;
    destruct (nth_error (gnb_vars_ gnb) i) eqn:Hv;
    destruct (nth_error (lda_mu_ lda) i) eqn:Hl;
    try reflexivity.
  exfalso.
  assert (nth_error (gnb_mu_ gnb) i <> None) as Hg' by congruence.
  assert (nth_error (gnb_vars_ gnb) i <> None) as Hv' by congruence.
  assert (nth_error (lda_mu_ lda) i <> None) as Hl' by congruence.
  apply nth_error_Some in Hg', Hv', Hl'. lia.
Qed.

Lemma nth_error_nth_lt {A} (l : list A) (i : nat) (d : A) :
  (i < List.length l)%nat -> nth_error l i = Some (nth i l d).
Proof. intros H. now apply nth_error_nth'. Qed.

Lemma ellipse_loop_in_range gnb lda fig (s : State) :
  (3 <= List.length (gnb_mu_ gnb))%nat ->
  (3 <= List.length (gnb_vars_ gnb))%nat ->
  (3 <= List.length (lda_mu_ lda))%nat ->
  for_fold (seq 0 3) (add_ellipses gnb lda) fig s =
  (Done (Fig.with_data fig (Fig.data fig ++ ellipse_overlay gnb lda)), s).
Proof.
  intros Hg Hv Hl. cbn [seq for_fold]. unfold bind.
  rewrite (add_ellipses_in_range gnb lda _ 0 s _ _ _
             (nth_error_nth_lt (gnb_mu_ gnb) 0 (0, 0) ltac:(lia))
             (nth_error_nth_lt (gnb_vars_ gnb) 0 (0, 0) ltac:(lia))
             (nth_error_nth_lt (lda_mu_ lda) 0 (0, 0) ltac:(lia))).
  rewrite (add_ellipses_in_range gnb lda _ 1 s _ _ _
             (nth_error_nth_lt (gnb_mu_ gnb) 1 (0, 0) ltac:(lia))
             (nth_error_nth_lt (gnb_vars_ gnb) 1 (0, 0) ltac:(lia))
             (nth_error_nth_lt (lda_mu_ lda) 1 (0, 0) ltac:(lia))).
  rewrite (add_ellipses_in_range gnb lda _ 2 s _ _ _
             (nth_error_nth_lt (gnb_mu_ gnb) 2 (0, 0) ltac:(lia))
             (nth_error_nth_lt (gnb_vars_ gnb) 2 (0, 0) ltac:(lia))
             (nth_error_nth_lt (lda_mu_ lda) 2 (0, 0) ltac:(lia))).
  unfold ret, Fig.add_traces, Fig.with_data, ellipse_overlay.
  cbn [Fig.data Fig.rows Fig.cols Fig.subplot_titles Fig.layout
       Fig.yaxes_scaleanchor Fig.yaxes_scaleratio
       seq flat_map combine map app].
  rewrite <- !app_assoc. reflexivity.
Qed.

Lemma ellipse_loop_out_of_range gnb lda fig (s : State) :
  (List.length (gnb_mu_ gnb) < 3)%nat \/
  (List.length (gnb_vars_ gnb) < 3)%nat \/
  (List.length (lda_mu_ lda) < 3)%nat ->
  for_fold (seq 0 3) (add_ellipses gnb lda) fig s = (Raised IndexError, s).
Proof.
  intros H. cbn [seq for_fold]. unfold bind.
  destruct (Nat.le_gt_cases (List.length (gnb_mu_ gnb)) 0) as [G0 | G0];
    [rewrite add_ellipses_out_of_range by lia; reflexivity |].
  destruct (Nat.le_gt_cases (List.length (gnb_vars_ gnb)) 0) as [V0 | V0];
    [rewrite add_ellipses_out_of_range by lia; reflexivity |].
  destruct (Nat.le_gt_cases (List.length (lda_mu_ lda)) 0) as [L0 | L0];
    [rewrite add_ellipses_out_of_range by lia; reflexivity |].
  rewrite (add_ellipses_in_range gnb lda _ 0 s _ _ _
             (nth_error_nth_lt _ 0 (0, 0) G0)
             (nth_error_nth_lt _ 0 (0, 0) V0)
             (nth_error_nth_lt _ 0 (0, 0) L0)).
  destruct (Nat.le_gt_cases (List.length (gnb_mu_ gnb)) 1) as [G1 | G1];
    [rewrite add_ellipses_out_of_range by lia; reflexivity |].
  destruct (Nat.le_gt_cases (List.length (gnb_vars_ gnb)) 1) as [V1 | V1];
    [rewrite add_ellipses_out_of_range by lia; reflexivity |].
  destruct (Nat.le_gt_cases (List.length (lda_mu_ lda)) 1) as [L1 | L1];
    [rewrite add_ellipses_out_of_range by lia; reflexivity |].
  rewrite (add_ellipses_in_range gnb lda _ 1 s _ _ _
             (nth_error_nth_lt _ 1 (0, 0) G1)
             (nth_error_nth_lt _ 1 (0, 0) V1)
             (nth_error_nth_lt _ 1 (0, 0) L1)).
  rewrite add_ellipses_out_of_range by lia. reflexivity.
Qed.

Lemma panel_with_data_app fig extra (r c : nat) :
  Fig.panel (Fig.with_data fig (Fig.data fig ++ extra)) r c =
  Fig.panel fig r c
  ++ map fst (filter (fun e => Fig.cell_eqb (snd e) r c) extra).
Proof.
  unfold Fig.panel, Fig.with_data; cbn [Fig.data].
  now rewrite filter_app, map_app.
Qed.

(** ** compare_gaussian_classifiers on one dataset *)

Lemma compare_on_unfold (f : string) (s : State) :
  let data := np_load ("../datasets/" ++ f) in
  let X := features data in
  let y := last_column data in
  let lda := lda_fit X y in
  let gnb := gnb_fit X y in
  compare_gaussian_classifiers_on f s =
  match for_fold (seq 0 3) (add_ellipses gnb lda)
                 (comparison_base X y gnb lda)
                 (mkState (trace s ++ comparison_calls f) (losses s)) with
  | (Done fig, s2) =>
      (Done tt,
       mkState (trace s2
                ++ [Call_write_image
                      (Fig.with_layout (Fig.update_yaxes fig "x" 1)
                                       (comparison_layout f))
                      ("lda_and_gaussian_naive_bayes_comparison."
                       ++ drop_last4 f ++ ".png")])
               (losses s2))
  | (Raised e, s2) => (Raised e, s2)
  end.
Proof.
  intros data X y lda gnb.
  unfold compare_gaussian_classifiers_on, load, LDA_fit, LDA_predict,
    GNB_fit, GNB_predict, Accuracy, write_image, comparison_calls.
  cbv [bind emit ret]. cbn [trace losses].
  fold data X y lda gnb.
  rewrite <- !app_assoc. cbn [app].
  fold (comparison_base X y gnb lda).
  reflexivity.
Qed.

Lemma compare_on_done (f : string) (s : State) :
  let data := np_load ("../datasets/" ++ f) in
  let X := features data in
  let y := last_column data in
  (3 <= List.length (gnb_mu_ (gnb_fit X y)))%nat ->
  (3 <= List.length (gnb_vars_ (gnb_fit X y)))%nat ->
  (3 <= List.length (lda_mu_ (lda_fit X y)))%nat ->
  compare_gaussian_classifiers_on f s =
  (Done tt,
   mkState (trace s ++ comparison_calls f
            ++ [Call_write_image
                  (comparison_figure f)
                  ("lda_and_gaussian_naive_bayes_comparison."
                   ++ drop_last4 f ++ ".png")])
           (losses s)).
Proof.
  intros data X y Hg Hv Hl.
  rewrite compare_on_unfold. fold data X y.
  rewrite ellipse_loop_in_range by assumption.
  cbn [trace losses]. rewrite <- app_assoc. reflexivity.
Qed.

Lemma compare_on_raised (f : string) (s : State) :
  let data := np_load ("../datasets/" ++ f) in
  let X := features data in
  let y := last_column data in
  (List.length (gnb_mu_ (gnb_fit X y)) < 3)%nat \/
  (List.length (gnb_vars_ (gnb_fit X y)) < 3)%nat \/
  (List.length (lda_mu_ (lda_fit X y)) < 3)%nat ->
  compare_gaussian_classifiers_on f s =
  (Raised IndexError, mkState (trace s ++ comparison_calls f) (losses s)).
Proof.
  intros data X y H.
  rewrite compare_on_unfold. fold data X y.
  now rewrite ellipse_loop_out_of_range by assumption.
Qed.

Lemma overlay_panel_left gnb lda :
  map fst (filter (fun e => Fig.cell_eqb (snd e) 1 1) (ellipse_overlay gnb lda))
  = map (fun i => get_ellipse (nth i (gnb_mu_ gnb) (0, 0))
                              (Np.diag (nth i (gnb_vars_ gnb) (0, 0))))
        (seq 0 3).
Proof. reflexivity. Qed.

Lemma overlay_panel_right gnb lda :
  map fst (filter (fun e => Fig.cell_eqb (snd e) 1 2) (ellipse_overlay gnb lda))
  = map (fun i => get_ellipse (nth i (lda_mu_ lda) (0, 0)) (lda_cov_ lda))
        (seq 0 3).
Proof. reflexivity. Qed.

Lemma get_ellipse_mode (mu : R * R) (cov : Np.Matrix2) :
  Go.mode (get_ellipse mu cov) = "lines".
Proof. rewrite get_ellipse_unfold. reflexivity. Qed.

Lemma ellipses_in_panel (d m e0 e1 e2 : Go.Scatter) :
  Go.mode d = "markers" -> Go.mode m = "markers" ->
  Go.mode e0 = "lines" -> Go.mode e1 = "lines" -> Go.mode e2 = "lines" ->
  ellipses_in [d; m; e0; e1; e2] = [e0; e1; e2].
Proof.
  intros Hd Hm H0 H1 H2. unfold ellipses_in. cbn [filter].
  rewrite Hd, Hm, H0, H1, H2. reflexivity.
Qed.

(** C6: when the models fitted by the comparison of a dataset expose [k]
    classes and [k] is not 3, the pipeline either completes with a figure
    that shows only three ellipses in each panel, those of classes 0, 1 and
    2, although [k > 3] classes exist, or, for [k < 3], ends with
    [IndexError] once the overlay loop indexes class [k], after the models
    were fitted and scored and without writing an image. *)
Theorem ellipse_loop_class_count (f : string) (s : State) (k : nat) :
  let data := np_load ("../datasets/" ++ f) in
  let X := features data in
  let y := last_column data in
  let gnb := gnb_fit X y in
  let lda := lda_fit X y in
  List.length (gnb_mu_ gnb) = k ->
  List.length (gnb_vars_ gnb) = k ->
  List.length (lda_mu_ lda) = k ->
  k <> 3%nat ->
  let r := compare_gaussian_classifiers_on f s in
  ((3 < k)%nat /\
   exists fig,
     r = (Done tt,
          mkState (trace s ++ comparison_calls f
                   ++ [Call_write_image
                         fig ("lda_and_gaussian_naive_bayes_comparison."
                              ++ drop_last4 f ++ ".png")])
                  (losses s)) /\
     Fig.panel fig 1 1 =
     data_points X y
     :: means_trace (gnb_mu_ gnb) "Gaussian Naive Bayes Means"
     :: map (fun i => get_ellipse (nth i (gnb_mu_ gnb) (0, 0))
                                  (Np.diag (nth i (gnb_vars_ gnb) (0, 0))))
            (seq 0 3) /\
     Fig.panel fig 1 2 =
     data_points X y
     :: means_trace (lda_mu_ lda) "LDA Means"
     :: map (fun i => get_ellipse (nth i (lda_mu_ lda) (0, 0)) (lda_cov_ lda))
            (seq 0 3) /\
     (List.length (ellipses_in (Fig.panel fig 1 1)) = 3%nat /\
      List.length (ellipses_in (Fig.panel fig 1 2)) = 3%nat /\
      (List.length (ellipses_in (Fig.panel fig 1 1)) < k)%nat /\
      (List.length (ellipses_in (Fig.panel fig 1 2)) < k)%nat))
  \/
  ((k < 3)%nat /\
   r = (Raised IndexError,
        mkState (trace s ++ comparison_calls f) (losses s)) /\
   forall fig s0, add_ellipses gnb lda fig k s0 = (Raised IndexError, s0)).
Proof.
  intros data X y gnb lda Hg Hv Hl Hk r.
  destruct (Nat.lt_ge_cases k 3) as [Hlt | Hge].
  - right. split; [exact Hlt |]. split.
    + subst r. apply compare_on_raised. fold data X y gnb lda. lia.
    + intros fig s0. apply add_ellipses_out_of_range. lia.
  - left. split; [lia |].
    exists (comparison_figure f).
    split; [subst r; apply compare_on_done; fold data X y gnb lda; lia |].
    assert (Hleft : Fig.panel (comparison_figure f) 1 1 =
                    data_points X y
                    :: means_trace (gnb_mu_ gnb) "Gaussian Naive Bayes Means"
                    :: map (fun i => get_ellipse (nth i (gnb_mu_ gnb) (0, 0))
                                       (Np.diag (nth i (gnb_vars_ gnb) (0, 0))))
                           (seq 0 3)) by reflexivity.
    assert (Hright : Fig.panel (comparison_figure f) 1 2 =
                     data_points X y
                     :: means_trace (lda_mu_ lda) "LDA Means"
                     :: map (fun i => get_ellipse (nth i (lda_mu_ lda) (0, 0))
                                                  (lda_cov_ lda))
                            (seq 0 3)) by reflexivity.
    split; [exact Hleft | split; [exact Hright |]].
    rewrite Hleft, Hright. cbn [map seq].
    rewrite !ellipses_in_panel
      by first [apply get_ellipse_mode | reflexivity].
    cbn [List.length]. repeat split; lia.
Qed.

(** C7: when the fitted models expose at least three classes, the comparison
    of a dataset writes a figure with one row of two panels, titled
    [Gaussian Naive Bayes] (left) and [LDA] (right).  The left panel holds
    the data points, the Naive Bayes means and the Naive Bayes ellipses; the
    right panel holds the same data points, the LDA means and the LDA
    ellipses.  The data points of both panels are one and the same trace,
    coloured by the label vector [y] of the dataset. *)
Theorem comparison_panels (f : string) (s : State) :
  let data := np_load ("../datasets/" ++ f) in
  let X := features data in
  let y := last_column data in
  let gnb := gnb_fit X y in
  let lda := lda_fit X y in
  (3 <= List.length (gnb_mu_ gnb))%nat ->
  (3 <= List.length (gnb_vars_ gnb))%nat ->
  (3 <= List.length (lda_mu_ lda))%nat ->
  exists s' fig,
    compare_gaussian_classifiers_on f s = (Done tt, s') /\
    last (trace s') (Call_np_load "") =
    Call_write_image fig ("lda_and_gaussian_naive_bayes_comparison."
                          ++ drop_last4 f ++ ".png") /\
    Fig.rows fig = 1%nat /\ Fig.cols fig = 2%nat /\
    Fig.subplot_titles fig = ["Gaussian Naive Bayes"; "LDA"] /\
    Fig.panel fig 1 1 =
    data_points X y
    :: means_trace (gnb_mu_ gnb) "Gaussian Naive Bayes Means"
    :: map (fun i => get_ellipse (nth i (gnb_mu_ gnb) (0, 0))
                                 (Np.diag (nth i (gnb_vars_ gnb) (0, 0))))
           (seq 0 3) /\
    Fig.panel fig 1 2 =
    data_points X y
    :: means_trace (lda_mu_ lda) "LDA Means"
    :: map (fun i => get_ellipse (nth i (lda_mu_ lda) (0, 0)) (lda_cov_ lda))
           (seq 0 3) /\
    Go.x (data_points X y) = map fst X /\
    Go.y (data_points X y) = map snd X /\
    Go.color (Go.marker (data_points X y)) = Some (Go.PerPoint y).
Proof.
  intros data X y gnb lda Hg Hv Hl.
  eexists; eexists.
  split; [apply compare_on_done; assumption |].
  cbn [trace]. rewrite !app_assoc, last_last.
  split; [reflexivity |].
  repeat (split; [reflexivity |]). reflexivity.
Qed.

(** ** Labels handed to the collaborators *)

Lemma astype_int_half : astype_int (1 / 2) = 0%Z.
Proof.
  assert (Ht : truncate (1 / 2) = 0%Z).
  { unfold truncate. destruct (Rle_dec 0 (1 / 2)) as [_ | H]; [| lra].
    unfold Int_part.
    rewrite <- (tech_up (1 / 2) 1); [reflexivity | simpl; lra | simpl; lra]. }
  unfold astype_int. rewrite Ht. reflexivity.
Qed.

Example astype_int_truncates : astype_int (- (3 / 2)) = (-1)%Z.
Proof.
  assert (Ht : truncate (- (3 / 2)) = (-1)%Z).
  { unfold truncate. destruct (Rle_dec 0 (- (3 / 2))) as [H | _]; [lra |].
    unfold Int_part.
    rewrite <- (tech_up (- - (3 / 2)) 2);
      [reflexivity | simpl; lra | simpl; lra]. }
  unfold astype_int. rewrite Ht. reflexivity.
Qed.

(** C9: [load_dataset] hands back the third column cast to integers, but the
    two pipelines never call it: every label vector they pass on (to [fit]
    and [loss] of the Perceptron, to [fit] of both Gaussian models and to
    [accuracy]) is the last column of the loaded array as it is, a vector of
    reals; [predict] receives the features only.  The cast is not the
    identity: it sends 1/2 to 0. *)
Theorem pipelines_pass_raw_labels (n f : string) (s : State) :
  let path := ("../datasets/" ++ f)%string in
  let X := features (np_load path) in
  let y := last_column (np_load path) in
  (load_dataset path s =
   (Done (X, map astype_int y), mkState (trace s ++ [Call_np_load path])
                                        (losses s)) /\
   IZR (astype_int (1 / 2)) <> 1 / 2) /\
  (exists s' calls,
     run_perceptron_on n f s = (Done tt, s') /\
     trace s' = trace s ++ calls /\
     Forall (carries_labels y) calls /\
     In (Call_Perceptron_fit X y) calls) /\
  (exists calls,
     trace (snd (compare_gaussian_classifiers_on f s)) = trace s ++ calls /\
     Forall (carries_labels y) calls /\
     In (Call_LDA_fit X y) calls /\ In (Call_GNB_fit X y) calls /\
     In (Call_LDA_predict X) calls /\ In (Call_GNB_predict X) calls /\
     In (Call_accuracy y (lda_predict (lda_fit X y) X)) calls /\
     In (Call_accuracy y (gnb_predict (gnb_fit X y) X)) calls).
Proof.
  intros path X y. split; [split |]; [reflexivity | | split].
  - rewrite astype_int_half. simpl. lra.
  - eexists; eexists. rewrite run_perceptron_on_run.
    split; [reflexivity |]. cbn [trace]. split; [reflexivity |].
    fold path X y. split.
    + apply Forall_app. split; [repeat constructor |].
      apply Forall_app. split; [| repeat constructor].
      apply Forall_forall. intros c Hc. apply in_map_iff in Hc.
      destruct Hc as (it & <- & _). reflexivity.
    + right; left; reflexivity.
  - assert (Hcalls : Forall (carries_labels y) (comparison_calls f))
      by (repeat constructor).
    assert (Hin : In (Call_LDA_fit X y) (comparison_calls f) /\
                  In (Call_GNB_fit X y) (comparison_calls f) /\
                  In (Call_LDA_predict X) (comparison_calls f) /\
                  In (Call_GNB_predict X) (comparison_calls f) /\
                  In (Call_accuracy y (lda_predict (lda_fit X y) X))
                     (comparison_calls f) /\
                  In (Call_accuracy y (gnb_predict (gnb_fit X y) X))
                     (comparison_calls f))
      by (unfold comparison_calls; fold path X y; cbn [In]; intuition).
    destruct Hin as (I1 & I2 & I3 & I4 & I5 & I6).
    rewrite compare_on_unfold. fold path X y.
    destruct (Nat.lt_ge_cases (List.length (gnb_mu_ (gnb_fit X y))) 3);
      [| destruct (Nat.lt_ge_cases (List.length (gnb_vars_ (gnb_fit X y))) 3);
         [| destruct (Nat.lt_ge_cases (List.length (lda_mu_ (lda_fit X y))) 3)]].
    1-3: rewrite ellipse_loop_out_of_range by lia;
      exists (comparison_calls f); cbn [snd trace];
      repeat (split; [first [reflexivity | assumption] |]); assumption.
    rewrite ellipse_loop_in_range by assumption.
    eexists. cbn [snd trace]. rewrite <- app_assoc.
    split; [reflexivity |].
    split; [apply Forall_app; split; [exact Hcalls | repeat constructor] |].
    repeat (split; [apply in_or_app; left; assumption |]).
    apply in_or_app; left; assumption.
Qed.

(** ** Naive Bayes ellipses *)

Lemma diag_theta (vars : R * R) :
  ellipse_theta (Np.diag vars)
  = if Rlt_dec (fst vars) (snd vars) then PI / 2 else 0.
Proof.
  unfold ellipse_theta; cbn [Np.diag Np.m00 Np.m01 Np.m11].
  destruct (Req_dec_T 0 0) as [_ | H]; [reflexivity | now elim H].
Qed.

(** C10: the covariance that a turn of the overlay loop passes for the
    Naive Bayes model is [diag(vars_[i])]; its off-diagonal entries are zero,
    so the angle is chosen by the zero branch and is [PI / 2] or [0]: the
    ellipse added to the left panel is axis-aligned. *)
Theorem naive_bayes_ellipse_axis_aligned gnb lda fig (i : nat) (s : State) :
  (i < List.length (gnb_mu_ gnb))%nat ->
  (i < List.length (gnb_vars_ gnb))%nat ->
  (i < List.length (lda_mu_ lda))%nat ->
  let mu := nth i (gnb_mu_ gnb) (0, 0) in
  let vars := nth i (gnb_vars_ gnb) (0, 0) in
  let theta := ellipse_theta (Np.diag vars) in
  exists fig',
    add_ellipses gnb lda fig i s = (Done fig', s) /\
    Fig.panel fig' 1 1 = Fig.panel fig 1 1 ++ [get_ellipse mu (Np.diag vars)] /\
    Np.m01 (Np.diag vars) = 0 /\ Np.m10 (Np.diag vars) = 0 /\
    theta = (if Rlt_dec (fst vars) (snd vars) then PI / 2 else 0) /\
    (theta = 0 \/ theta = PI / 2) /\
    get_ellipse mu (Np.diag vars) =
    ellipse_trace mu (fst (ellipse_axes (Np.diag vars)))
                  (snd (ellipse_axes (Np.diag vars))) theta.
Proof.
  intros Hg Hv Hl mu vars theta.
  eexists. split.
  - apply add_ellipses_in_range;
      apply (fun l H => nth_error_nth_lt l i (0, 0) H); assumption.
  - split; [| split; [reflexivity | split; [reflexivity |]]].
    + unfold Fig.add_traces. rewrite panel_with_data_app. reflexivity.
    + split; [apply diag_theta | split; [| apply get_ellipse_unfold]].
      subst theta. rewrite diag_theta.
      destruct (Rlt_dec (fst vars) (snd vars)); [right | left]; reflexivity.
Qed.

End ScriptProperties.

(** ** Worked instances *)

Lemma ellipse_loop_class_count_witness :
  let C := sample_collaborators 2 in
  let data := np_load ("../datasets/" ++ "gaussian1.npy") in
  let X := features data in
  let y := last_column data in
  (List.length (gnb_mu_ (gnb_fit X y)) = 2%nat /\
   List.length (gnb_vars_ (gnb_fit X y)) = 2%nat /\
   List.length (lda_mu_ (lda_fit X y)) = 2%nat /\
   2%nat <> 3%nat) /\
  compare_gaussian_classifiers_on "gaussian1.npy" initial_state
  = (Raised IndexError,
     mkState (trace initial_state ++ comparison_calls "gaussian1.npy")
             (losses initial_state)).
Proof.
  intros C data X y.
  assert (Hg : List.length (gnb_mu_ (gnb_fit X y)) = 2%nat) by reflexivity.
  assert (Hv : List.length (gnb_vars_ (gnb_fit X y)) = 2%nat) by reflexivity.
  assert (Hl : List.length (lda_mu_ (lda_fit X y)) = 2%nat) by reflexivity.
  assert (Hk : 2%nat <> 3%nat) by lia.
  split; [repeat split; assumption |].
  destruct (ellipse_loop_class_count (C := C) "gaussian1.npy" initial_state 2
                                     Hg Hv Hl Hk)
    as [[Hlt _] | (_ & Hraise & _)]; [lia | exact Hraise].
Defined.

Lemma comparison_panels_witness :
  let C := sample_collaborators 3 in
  let data := np_load ("../datasets/" ++ "gaussian1.npy") in
  let X := features data in
  let y := last_column data in
  ((3 <= List.length (gnb_mu_ (gnb_fit X y)))%nat /\
   (3 <= List.length (gnb_vars_ (gnb_fit X y)))%nat /\
   (3 <= List.length (lda_mu_ (lda_fit X y)))%nat) /\
  exists s', compare_gaussian_classifiers_on "gaussian1.npy" initial_state
             = (Done tt, s').
Proof.
  intros C data X y.
  assert (Hg : (3 <= List.length (gnb_mu_ (gnb_fit X y)))%nat) by (simpl; lia).
  assert (Hv : (3 <= List.length (gnb_vars_ (gnb_fit X y)))%nat) by (simpl; lia).
  assert (Hl : (3 <= List.length (lda_mu_ (lda_fit X y)))%nat) by (simpl; lia).
  split; [repeat split; assumption |].
  destruct (comparison_panels (C := C) "gaussian1.npy" initial_state Hg Hv Hl)
    as (s' & fig & Hrun & _).
  exists s'. exact Hrun.
Defined.

Lemma naive_bayes_ellipse_axis_aligned_witness :
  let gnb := mkGNB [(0, 0); (5, 5); (10, 0)] [(1, 4); (4, 1); (2, 2)] in
  let lda := mkLDA [(0, 0); (5, 5); (10, 0)] (Np.mkMatrix2 2 1 1 2) in
  ((0 < List.length (gnb_mu_ gnb))%nat /\
   (0 < List.length (gnb_vars_ gnb))%nat /\
   (0 < List.length (lda_mu_ lda))%nat) /\
  ellipse_theta (Np.diag (1, 4)) = PI / 2.
Proof.
  intros gnb lda.
  assert (Hg : (0 < List.length (gnb_mu_ gnb))%nat) by (simpl; lia).
  assert (Hv : (0 < List.length (gnb_vars_ gnb))%nat) by (simpl; lia).
  assert (Hl : (0 < List.length (lda_mu_ lda))%nat) by (simpl; lia).
  split; [repeat split; assumption |].
  destruct (naive_bayes_ellipse_axis_aligned
              gnb lda (Fig.make_subplots 1 2 []) 0 initial_state Hg Hv Hl)
    as (fig' & _ & _ & _ & _ & Htheta & _).
  cbn [nth gnb gnb_vars_ fst snd] in Htheta. rewrite Htheta.
  destruct (Rlt_dec 1 4) as [_ | H]; [reflexivity | lra].
Defined.

(** * Further properties of the code *)

(** ** Geometry of get_ellipse *)

Lemma last_is_nth {A} (l : list A) (d : A) :
  last l d = nth (List.length l - 1) l d.
Proof.
  induction l as [| a l IH]; [reflexivity |].
  destruct l as [| b l]; [reflexivity |].
  change (last (a :: b :: l) d) with (last (b :: l) d). rewrite IH.
  simpl. now rewrite Nat.sub_0_r.
Qed.

(** X1: the curve is closed: its first and last points coincide, at the end of the
    first axis. *)
Theorem get_ellipse_closed (mu : R * R) (cov : Np.Matrix2) :
  let l1 := fst (ellipse_axes cov) in
  let theta := ellipse_theta cov in
  let pts := Go.points (get_ellipse mu cov) in
  nth 0 pts (0, 0) = (fst mu + l1 * cos theta, snd mu + l1 * sin theta) /\
  nth 99 pts (0, 0) = nth 0 pts (0, 0) /\
  last pts (0, 0) = hd (0, 0) pts.
Proof.
  intros l1 theta pts.
  assert (H0 : nth 0 pts (0, 0)
               = (fst mu + l1 * cos theta, snd mu + l1 * sin theta)).
  { subst pts. rewrite get_ellipse_nth by lia.
    rewrite linspace_first by lia. unfold ellipse_point.
    rewrite cos_0, sin_0. subst l1 theta. f_equal; ring. }
  assert (H99 : nth 99 pts (0, 0) = nth 0 pts (0, 0)).
  { rewrite H0. subst pts. rewrite get_ellipse_nth by lia.
    pose proof (linspace_last 0 (2 * PI) 100 ltac:(lia)) as HL.
    change (100 - 1)%nat with 99%nat in HL. rewrite HL. unfold ellipse_point.
    rewrite cos_2PI, sin_2PI. subst l1 theta. f_equal; ring. }
  split; [exact H0 | split; [exact H99 |]].
  pose proof (get_ellipse_length mu cov) as Hlen. fold pts in Hlen.
  rewrite last_is_nth, Hlen.
  change (100 - 1)%nat with 99%nat. rewrite H99.
  destruct pts; [discriminate Hlen | reflexivity].
Qed.

Lemma in_frame_ellipse_point (mu : R * R) (l1 l2 theta ti : R) :
  in_frame mu theta (ellipse_point mu l1 l2 theta ti)
  = (l1 * cos ti, l2 * sin ti).
Proof.
  unfold in_frame, ellipse_point; cbn [fst snd].
  pose proof (sin2_cos2 theta) as H. unfold Rsqr in H.
  f_equal.
  - replace (l1 * cos ti)
      with (l1 * cos ti * (sin theta * sin theta + cos theta * cos theta))
      by (rewrite H; ring).
    ring.
  - replace (l2 * sin ti)
      with (l2 * sin ti * (sin theta * sin theta + cos theta * cos theta))
      by (rewrite H; ring).
    ring.
Qed.

(** X2: every point of the curve lies on the ellipse centred at the mean whose
    half-axes are [l1] along the direction [theta] and [l2] across it. *)
Theorem get_ellipse_on_ellipse (mu : R * R) (cov : Np.Matrix2) :
  let l1 := fst (ellipse_axes cov) in
  let l2 := snd (ellipse_axes cov) in
  let theta := ellipse_theta cov in
  Forall (fun p =>
            let u := fst (in_frame mu theta p) in
            let v := snd (in_frame mu theta p) in
            (l2 * u) * (l2 * u) + (l1 * v) * (l1 * v)
            = (l1 * l2) * (l1 * l2))
         (Go.points (get_ellipse mu cov)).
Proof.
  intros l1 l2 theta. rewrite get_ellipse_points. apply Forall_forall.
  intros p Hp. apply in_map_iff in Hp. destruct Hp as (ti & <- & _).
  fold l1 l2 theta. rewrite in_frame_ellipse_point; cbn [fst snd].
  pose proof (sin2_cos2 ti) as H. unfold Rsqr in H.
  replace (l1 * l2 * (l1 * l2))
    with (l1 * l2 * (l1 * l2) * (sin ti * sin ti + cos ti * cos ti))
    by (rewrite H; ring).
  ring.
Qed.

Lemma ellipse_axes_sum_product (cov : Np.Matrix2) :
  fst (ellipse_axes cov) + snd (ellipse_axes cov) = Np.m00 cov + Np.m11 cov /\
  fst (ellipse_axes cov) * snd (ellipse_axes cov)
  = Np.m00 cov * Np.m11 cov - Np.m10 cov * Np.m10 cov.
Proof.
  destruct cov as [a b c d].
  rewrite ellipse_axes_eq; cbn [fst snd Np.m00 Np.m01 Np.m10 Np.m11].
  pose proof (sqrt_sqrt _ (discriminant_nonneg a c d)) as Hs.
  set (s := sqrt _) in *.
  split; [lra | nra].
Qed.

Lemma major_axis_above_diagonal (cov : Np.Matrix2) :
  Np.m10 cov <> 0 ->
  Np.m00 cov < fst (ellipse_axes cov) /\ Np.m11 cov < fst (ellipse_axes cov).
Proof.
  destruct cov as [a b c d].
  rewrite ellipse_axes_eq; cbn [fst snd Np.m00 Np.m01 Np.m10 Np.m11].
  intros Hc.
  pose proof (sqrt_sqrt _ (discriminant_nonneg a c d)) as Hs.
  pose proof (sqrt_pos ((a - d) * (a - d) + 4 * (c * c))) as Hp.
  set (s := sqrt _) in *.
  assert (0 < c * c) by nra.
  split; nra.
Qed.

(** X3: for a symmetric covariance the direction [theta] of the first axis is
    an eigenvector for the larger eigenvalue [l1], and the direction across it
    is an eigenvector for the smaller eigenvalue [l2]. *)
Theorem ellipse_theta_eigenvector (cov : Np.Matrix2) :
  Np.symmetric cov ->
  let l1 := fst (ellipse_axes cov) in
  let l2 := snd (ellipse_axes cov) in
  let theta := ellipse_theta cov in
  (Np.m00 cov * cos theta + Np.m01 cov * sin theta = l1 * cos theta /\
   Np.m10 cov * cos theta + Np.m11 cov * sin theta = l1 * sin theta) /\
  (Np.m00 cov * - sin theta + Np.m01 cov * cos theta = l2 * - sin theta /\
   Np.m10 cov * - sin theta + Np.m11 cov * cos theta = l2 * cos theta).
Proof.
  intros Hsym l1 l2 theta.
  destruct (ellipse_axes_eigen cov Hsym) as [He1 _].
  destruct (ellipse_axes_sum_product cov) as [Hsum _].
  fold l1 l2 in He1, Hsum.
  destruct (Req_dec_T (Np.m01 cov) 0) as [Hz | Hnz].
  - assert (Hz' : Np.m10 cov = 0) by (rewrite <- Hsym; exact Hz).
    unfold Np.is_eigenvalue in He1. rewrite Hz, Hz' in *.
    assert (Hl1 : (Np.m00 cov - l1) * (Np.m11 cov - l1) = 0) by lra.
    pose proof (ellipse_axes_ordered cov) as Hord. fold l1 l2 in Hord.
    destruct (Rlt_dec (Np.m00 cov) (Np.m11 cov)) as [Hlt | Hge].
    + subst theta. rewrite ellipse_theta_diagonal_lt by assumption.
      rewrite cos_PI2, sin_PI2.
      assert (l1 = Np.m11 cov).
      { apply Rmult_integral in Hl1. destruct Hl1; [| lra].
        assert (l2 = Np.m11 cov) by lra. lra. }
      assert (l2 = Np.m00 cov) by lra.
      repeat split; nra.
    + subst theta. rewrite ellipse_theta_diagonal_ge by assumption.
      rewrite cos_0, sin_0.
      assert (l1 = Np.m00 cov).
      { apply Rmult_integral in Hl1. destruct Hl1; [lra |].
        assert (l2 = Np.m00 cov) by lra. lra. }
      assert (l2 = Np.m11 cov) by lra.
      repeat split; nra.
  - subst theta. rewrite ellipse_theta_off_diagonal by assumption. fold l1.
    destruct (atan2_polar (l1 - Np.m00 cov) (Np.m01 cov) (or_introl Hnz))
      as [Hc Hs].
    set (r := sqrt _) in *.
    set (c := cos _) in *. set (sn := sin _) in *.
    assert (Hr : r <> 0).
    { intros Hr0. rewrite Hr0 in Hc. lra. }
    unfold Np.is_eigenvalue in He1. unfold Np.symmetric in Hsym.
    rewrite <- Hsym in *.
    assert (E1 : r * (Np.m00 cov * c + Np.m01 cov * sn) = r * (l1 * c)) by nra.
    assert (E2 : r * (Np.m01 cov * c + Np.m11 cov * sn) = r * (l1 * sn)) by nra.
    assert (E3 : r * (Np.m00 cov * - sn + Np.m01 cov * c) = r * (l2 * - sn))
      by nra.
    assert (E4 : r * (Np.m01 cov * - sn + Np.m11 cov * c) = r * (l2 * c))
      by nra.
    repeat split; eapply Rmult_eq_reg_l; eassumption.
Qed.

Lemma ellipse_theta_eigenvector_witness :
  let cov := Np.mkMatrix2 2 1 1 2 in
  Np.symmetric cov /\
  Np.m00 cov * cos (ellipse_theta cov) + Np.m01 cov * sin (ellipse_theta cov)
  = fst (ellipse_axes cov) * cos (ellipse_theta cov).
Proof.
  intros cov.
  assert (Hsym : Np.symmetric cov) by reflexivity.
  split; [exact Hsym |].
  destruct (ellipse_theta_eigenvector cov Hsym) as [[H _] _]. exact H.
Defined.

(** X4: the two values taken from [eigvalsh] add up to the trace
    [cov[0][0] + cov[1][1]] and multiply to the determinant read from the
    lower triangle, [cov[0][0] * cov[1][1] - cov[1][0] * cov[1][0]]. *)
Theorem ellipse_axes_trace_determinant (cov : Np.Matrix2) :
  let l1 := fst (ellipse_axes cov) in
  let l2 := snd (ellipse_axes cov) in
  l1 + l2 = Np.m00 cov + Np.m11 cov /\
  l1 * l2 = Np.m00 cov * Np.m11 cov - Np.m10 cov * Np.m10 cov /\
  l2 <= l1.
Proof.
  intros l1 l2. destruct (ellipse_axes_sum_product cov) as [Hs Hp].
  split; [exact Hs | split; [exact Hp | apply ellipse_axes_ordered]].
Qed.

Lemma ellipse_axes_nonneg (cov : Np.Matrix2) :
  0 <= Np.m00 cov -> 0 <= Np.m11 cov ->
  Np.m10 cov * Np.m10 cov <= Np.m00 cov * Np.m11 cov ->
  0 <= snd (ellipse_axes cov) <= fst (ellipse_axes cov).
Proof.
  intros Ha Hd Hdet.
  pose proof (ellipse_axes_ordered cov) as Hord.
  destruct (ellipse_axes_sum_product cov) as [Hsum Hprod].
  split; [| exact Hord].
  set (l1 := fst (ellipse_axes cov)) in *.
  set (l2 := snd (ellipse_axes cov)) in *.
  destruct (Rle_dec 0 l2) as [H | H]; [exact H | exfalso].
  assert (l2 < 0) by lra.
  assert (0 <= l1 * l2) by lra.
  assert (l1 <= 0) by nra.
  assert (l1 + l2 < 0) by lra. lra.
Qed.

Lemma distance_sq (mu : R * R) (l1 l2 theta ti : R) :
  distance (ellipse_point mu l1 l2 theta ti) mu
  = sqrt ((l1 * cos ti) * (l1 * cos ti) + (l2 * sin ti) * (l2 * sin ti)).
Proof.
  unfold distance, ellipse_point; cbn [fst snd]. f_equal.
  pose proof (sin2_cos2 theta) as H. unfold Rsqr in H.
  replace (l1 * cos ti * (l1 * cos ti) + l2 * sin ti * (l2 * sin ti))
    with ((l1 * cos ti * (l1 * cos ti) + l2 * sin ti * (l2 * sin ti))
          * (sin theta * sin theta + cos theta * cos theta))
    by (rewrite H; ring).
  ring.
Qed.

Lemma ellipse_point_distance_bounds (mu : R * R) (l1 l2 theta ti : R) :
  0 <= l2 <= l1 ->
  l2 <= distance (ellipse_point mu l1 l2 theta ti) mu <= l1.
Proof.
  intros [H2 H1]. rewrite distance_sq.
  pose proof (sin2_cos2 ti) as H. unfold Rsqr in H.
  pose proof (Rle_0_sqr (cos ti)) as Hc. pose proof (Rle_0_sqr (sin ti)) as Hs.
  unfold Rsqr in Hc, Hs.
  set (c2 := cos ti * cos ti) in *. set (s2 := sin ti * sin ti) in *.
  replace (l1 * cos ti * (l1 * cos ti) + l2 * sin ti * (l2 * sin ti))
    with (l1 * l1 * c2 + l2 * l2 * s2) by (unfold c2, s2; ring).
  assert (Hl : l2 * l2 <= l1 * l1) by nra.
  split.
  - apply Rle_trans with (sqrt (l2 * l2));
      [rewrite sqrt_square by assumption; lra | apply sqrt_le_1_alt; nra].
  - apply Rle_trans with (sqrt (l1 * l1));
      [apply sqrt_le_1_alt; nra | rewrite sqrt_square by lra; lra].
Qed.

(** X5: for a positive semi-definite covariance (non-negative diagonal and
    determinant) both axes are non-negative and every point of the curve is
    at a distance from the mean between [l2] and [l1]. *)
Theorem get_ellipse_between_axes (mu : R * R) (cov : Np.Matrix2) :
  0 <= Np.m00 cov -> 0 <= Np.m11 cov ->
  Np.m10 cov * Np.m10 cov <= Np.m00 cov * Np.m11 cov ->
  0 <= snd (ellipse_axes cov) <= fst (ellipse_axes cov) /\
  Forall (fun p => snd (ellipse_axes cov) <= distance p mu
                   <= fst (ellipse_axes cov))
         (Go.points (get_ellipse mu cov)).
Proof.
  intros Ha Hd Hdet. split; [now apply ellipse_axes_nonneg |].
  rewrite get_ellipse_points. apply Forall_forall.
  intros p Hp. apply in_map_iff in Hp. destruct Hp as (ti & <- & _).
  apply ellipse_point_distance_bounds. now apply ellipse_axes_nonneg.
Qed.

Lemma get_ellipse_between_axes_witness :
  let cov := Np.mkMatrix2 2 1 1 2 in
  (0 <= Np.m00 cov /\ 0 <= Np.m11 cov /\
   Np.m10 cov * Np.m10 cov <= Np.m00 cov * Np.m11 cov) /\
  0 <= snd (ellipse_axes cov) <= fst (ellipse_axes cov).
Proof.
  intros cov.
  assert (Ha : 0 <= Np.m00 cov) by (simpl; lra).
  assert (Hd : 0 <= Np.m11 cov) by (simpl; lra).
  assert (Hdet : Np.m10 cov * Np.m10 cov <= Np.m00 cov * Np.m11 cov)
    by (simpl; lra).
  split; [repeat split; assumption |].
  destruct (get_ellipse_between_axes (0, 0) cov Ha Hd Hdet) as [H _]. exact H.
Defined.

Lemma diag_axes (v : R * R) :
  ellipse_axes (Np.diag v) = (Rmax (fst v) (snd v), Rmin (fst v) (snd v)).
Proof.
  rewrite ellipse_axes_eq; cbn [Np.diag Np.m00 Np.m10 Np.m11].
  replace ((fst v - snd v) * (fst v - snd v) + 4 * (0 * 0))
    with (Rsqr (fst v - snd v)) by (unfold Rsqr; ring).
  rewrite sqrt_Rsqr_abs.
  unfold Rabs, Rmax, Rmin.
  destruct (Rcase_abs (fst v - snd v)); destruct (Rle_dec (fst v) (snd v));
    f_equal; lra.
Qed.

(** X6: for a diagonal covariance [diag(v)] the axes are the larger and the
    smaller of [v[0]], [v[1]], and every point of the curve lies on the
    axis-aligned ellipse around the mean with half-width [v[0]] along x and
    half-height [v[1]] along y, whichever branch chooses [theta]. *)
Theorem diagonal_ellipse_extents (mu v : R * R) :
  ellipse_axes (Np.diag v) = (Rmax (fst v) (snd v), Rmin (fst v) (snd v)) /\
  Forall (fun p =>
            (snd v * (fst p - fst mu)) * (snd v * (fst p - fst mu))
            + (fst v * (snd p - snd mu)) * (fst v * (snd p - snd mu))
            = (fst v * snd v) * (fst v * snd v))
         (Go.points (get_ellipse mu (Np.diag v))).
Proof.
  split; [apply diag_axes |].
  rewrite get_ellipse_points, diag_axes, diag_theta; cbn [fst snd].
  apply Forall_forall. intros p Hp. apply in_map_iff in Hp.
  destruct Hp as (ti & <- & _).
  unfold ellipse_point; cbn [fst snd].
  pose proof (sin2_cos2 ti) as H. unfold Rsqr in H.
  replace (fst v * snd v * (fst v * snd v))
    with (fst v * snd v * (fst v * snd v) * (sin ti * sin ti + cos ti * cos ti))
    by (rewrite H; ring).
  destruct (Rlt_dec (fst v) (snd v)) as [Hlt | Hge].
  - rewrite cos_PI2, sin_PI2, Rmax_right, Rmin_left by lra. ring.
  - rewrite cos_0, sin_0, Rmax_left, Rmin_right by lra. ring.
Qed.

(** X7: for a symmetric covariance with a non-zero off-diagonal entry the angle
    lies strictly between 0 and PI; it is below PI/2 when the entry is
    positive and above PI/2 when it is negative. *)
Theorem ellipse_theta_tilt (cov : Np.Matrix2) :
  Np.symmetric cov ->
  Np.m01 cov <> 0 ->
  let theta := ellipse_theta cov in
  (0 < Np.m01 cov -> 0 < theta < PI / 2) /\
  (Np.m01 cov < 0 -> PI / 2 < theta < PI).
Proof.
  intros Hsym Hnz theta. subst theta.
  rewrite ellipse_theta_off_diagonal by assumption.
  assert (Hc : Np.m10 cov <> 0) by (rewrite <- Hsym; exact Hnz).
  destruct (major_axis_above_diagonal cov Hc) as [Hy _].
  set (yv := fst (ellipse_axes cov) - Np.m00 cov).
  assert (Hyv : 0 < yv) by (unfold yv; lra).
  pose proof (atan_bound (yv / Np.m01 cov)) as Hb.
  pose proof PI_RGT_0 as Hpi.
  unfold Math.atan2. split; intros Hsign.
  - destruct (Rlt_dec 0 (Np.m01 cov)); [| lra].
    assert (0 < yv / Np.m01 cov) by (apply Rdiv_lt_0_compat; lra).
    pose proof (atan_pos _ H). lra.
  - destruct (Rlt_dec 0 (Np.m01 cov)); [lra |].
    destruct (Rlt_dec (Np.m01 cov) 0); [| lra].
    destruct (Rle_dec 0 yv); [| lra].
    assert (yv / Np.m01 cov < 0).
    { unfold Rdiv. assert (/ Np.m01 cov < 0) by now apply Rinv_lt_0_compat.
      nra. }
    pose proof (atan_increasing _ _ H) as Hi. rewrite atan_0 in Hi. lra.
Qed.

Lemma ellipse_theta_tilt_witness :
  let cov := Np.mkMatrix2 2 1 1 2 in
  (Np.symmetric cov /\ Np.m01 cov <> 0) /\
  0 < ellipse_theta cov < PI / 2.
Proof.
  intros cov.
  assert (Hsym : Np.symmetric cov) by reflexivity.
  assert (Hnz : Np.m01 cov <> 0) by (simpl; lra).
  split; [split; assumption |].
  destruct (ellipse_theta_tilt cov Hsym Hnz) as [H _].
  apply H. simpl. lra.
Defined.

(** ** The overlay loop and the two pipelines *)

Lemma three_rows_true gnb lda :
  three_rows gnb lda = true ->
  (3 <= List.length (gnb_mu_ gnb))%nat /\
  (3 <= List.length (gnb_vars_ gnb))%nat /\
  (3 <= List.length (lda_mu_ lda))%nat.
Proof.
  unfold three_rows. rewrite !andb_true_iff, !Nat.leb_le. tauto.
Qed.

Lemma three_rows_false gnb lda :
  three_rows gnb lda = false ->
  (List.length (gnb_mu_ gnb) < 3)%nat \/
  (List.length (gnb_vars_ gnb) < 3)%nat \/
  (List.length (lda_mu_ lda) < 3)%nat.
Proof.
  unfold three_rows. rewrite !andb_false_iff, !Nat.leb_gt. tauto.
Qed.

(** X8: the overlay loop completes exactly when [mu_] and [vars_] of the Naive
    Bayes model and [mu_] of LDA each have at least three rows; it then adds
    six traces to the figure, and otherwise raises [IndexError].  It makes no
    call and leaves the program state as it was. *)
Theorem ellipse_loop_outcome gnb lda fig (s : State) :
  let r := for_fold (seq 0 3) (add_ellipses gnb lda) fig s in
  r = (if three_rows gnb lda
       then (Done (Fig.with_data fig (Fig.data fig ++ ellipse_overlay gnb lda)),
             s)
       else (Raised IndexError, s)) /\
  snd r = s /\
  List.length (ellipse_overlay gnb lda) = 6%nat.
Proof.
  intros r. subst r.
  destruct (three_rows gnb lda) eqn:E.
  - apply three_rows_true in E. destruct E as (Hg & Hv & Hl).
    rewrite ellipse_loop_in_range by assumption. repeat split.
  - apply three_rows_false in E.
    rewrite ellipse_loop_out_of_range by assumption. repeat split.
Qed.

Section PipelineProperties.

Context {C : Collaborators}.

Lemma compare_on_run (f : string) (s : State) :
  compare_gaussian_classifiers_on f s =
  (outcome_of (three_rows (fitted_gnb f) (fitted_lda f)),
   mkState (trace s ++ comparison_trace f) (losses s)).
Proof.
  unfold comparison_trace, outcome_of, fitted_gnb, fitted_lda.
  destruct (three_rows _ _) eqn:E.
  - apply three_rows_true in E. destruct E as (Hg & Hv & Hl).
    now rewrite compare_on_done.
  - apply three_rows_false in E. rewrite compare_on_raised by assumption.
    now rewrite app_nil_r.
Qed.

Lemma written_app (a b : list Call) : written (a ++ b) = written a ++ written b.
Proof. apply flat_map_app. Qed.

Lemma loaded_app (a b : list Call) : loaded (a ++ b) = loaded a ++ loaded b.
Proof. apply flat_map_app. Qed.

Lemma written_losses X y (its : list (Perceptron * (R * R) * R)) :
  written (map (fun _ => Call_Perceptron_loss X y) its) = [].
Proof. induction its; [reflexivity | exact IHits]. Qed.

Lemma loaded_losses X y (its : list (Perceptron * (R * R) * R)) :
  loaded (map (fun _ => Call_Perceptron_loss X y) its) = [].
Proof. induction its; [reflexivity | exact IHits]. Qed.

Lemma written_comparison_calls (f : string) : written (comparison_calls f) = [].
Proof. reflexivity. Qed.

Lemma loaded_comparison_calls (f : string) :
  loaded (comparison_calls f) = ["../datasets/" ++ f]%string.
Proof. reflexivity. Qed.

Lemma written_perceptron_calls (n f : string) :
  written (perceptron_calls n f)
  = [(perceptron_figure n f, ("perceptron_fit_" ++ n ++ ".png")%string)].
Proof.
  unfold perceptron_calls. rewrite !written_app, written_losses. reflexivity.
Qed.

Lemma loaded_perceptron_calls (n f : string) :
  loaded (perceptron_calls n f) = ["../datasets/" ++ f]%string.
Proof.
  unfold perceptron_calls. rewrite !loaded_app, loaded_losses. reflexivity.
Qed.

Lemma written_comparison_trace (f : string) :
  written (comparison_trace f)
  = if three_rows (fitted_gnb f) (fitted_lda f)
    then [(comparison_figure f,
           ("lda_and_gaussian_naive_bayes_comparison." ++ drop_last4 f
            ++ ".png")%string)]
    else [].
Proof.
  unfold comparison_trace. rewrite written_app, written_comparison_calls.
  now destruct (three_rows _ _).
Qed.

Lemma loaded_comparison_trace (f : string) :
  loaded (comparison_trace f) = ["../datasets/" ++ f]%string.
Proof.
  unfold comparison_trace. rewrite loaded_app, loaded_comparison_calls.
  now destruct (three_rows _ _).
Qed.

Lemma run_perceptron_on_state (n f : string) (s : State) :
  run_perceptron_on n f s =
  (Done tt, mkState (trace s ++ perceptron_calls n f) (recorded_losses f)).
Proof. rewrite run_perceptron_on_run. reflexivity. Qed.

Lemma run_perceptron_state (s : State) :
  run_perceptron s =
  (Done tt,
   mkState (trace s
            ++ perceptron_calls "Linearly Separable" "linearly_separable.npy"
            ++ perceptron_calls "Linearly Inseparable"
                                "linearly_inseparable.npy")
           (recorded_losses "linearly_inseparable.npy")).
Proof.
  unfold run_perceptron. cbn [for_each fst snd]. unfold bind.
  rewrite !run_perceptron_on_state. cbn [trace losses]. unfold ret.
  now rewrite <- app_assoc.
Qed.

Lemma compare_state (s : State) :
  let ok1 := three_rows (fitted_gnb "gaussian1.npy") (fitted_lda "gaussian1.npy") in
  let ok2 := three_rows (fitted_gnb "gaussian2.npy") (fitted_lda "gaussian2.npy") in
  compare_gaussian_classifiers s =
  (outcome_of (ok1 && ok2),
   mkState (trace s ++ comparison_trace "gaussian1.npy"
            ++ (if ok1 then comparison_trace "gaussian2.npy" else []))
           (losses s)).
Proof.
  intros ok1 ok2.
  unfold compare_gaussian_classifiers. cbn [for_each]. unfold bind.
  rewrite compare_on_run. fold ok1.
  destruct ok1; cbn [outcome_of andb].
  - rewrite compare_on_run. fold ok2. cbn [trace losses].
    destruct ok2; cbn [outcome_of]; unfold ret; now rewrite <- app_assoc.
  - now rewrite app_nil_r.
Qed.

(** X9: the comparison of one dataset fits, predicts and scores both models
    before it builds the figure.  When the models have their three rows it
    ends normally, having written one image whose figure holds ten traces;
    otherwise it ends with [IndexError] after those calls, and no image is
    written.  The [losses] list is not touched. *)
Theorem compare_on_outcome (f : string) (s : State) :
  let ok := three_rows (fitted_gnb f) (fitted_lda f) in
  let name := ("lda_and_gaussian_naive_bayes_comparison." ++ drop_last4 f
               ++ ".png")%string in
  let r := compare_gaussian_classifiers_on f s in
  fst r = outcome_of ok /\
  trace (snd r) =
  trace s ++ comparison_calls f
  ++ (if ok then [Call_write_image (comparison_figure f) name] else []) /\
  written (trace (snd r)) =
  written (trace s) ++ (if ok then [(comparison_figure f, name)] else []) /\
  losses (snd r) = losses s /\
  List.length (Fig.data (comparison_figure f)) = 10%nat.
Proof.
  intros ok name r. subst r. rewrite compare_on_run. cbn [fst snd trace losses].
  fold ok. split; [reflexivity |]. split; [reflexivity |].
  split; [| split; reflexivity].
  rewrite written_app, written_comparison_trace. reflexivity.
Qed.

(** X10: [compare_gaussian_classifiers] stops at the first dataset whose
    models lack a row: [gaussian2.npy] is read only when the comparison of
    [gaussian1.npy] completed, and each completed comparison leaves its own
    image, named after the file without its extension. *)
Theorem compare_stops_at_first_failure (s : State) :
  let ok1 := three_rows (fitted_gnb "gaussian1.npy")
                        (fitted_lda "gaussian1.npy") in
  let ok2 := three_rows (fitted_gnb "gaussian2.npy")
                        (fitted_lda "gaussian2.npy") in
  let r := compare_gaussian_classifiers s in
  fst r = outcome_of (ok1 && ok2) /\
  loaded (trace (snd r)) =
  loaded (trace s)
  ++ "../datasets/gaussian1.npy"
     :: (if ok1 then ["../datasets/gaussian2.npy"] else []) /\
  map snd (written (trace (snd r))) =
  map snd (written (trace s))
  ++ (if ok1
      then "lda_and_gaussian_naive_bayes_comparison.gaussian1.png"
           :: (if ok2
               then ["lda_and_gaussian_naive_bayes_comparison.gaussian2.png"]
               else [])
      else []) /\
  losses (snd r) = losses s.
Proof.
  intros ok1 ok2 r. subst r. rewrite compare_state. fold ok1 ok2.
  cbn [fst snd trace losses].
  split; [reflexivity |]. split; [| split; [| reflexivity]].
  - rewrite !loaded_app, loaded_comparison_trace.
    destruct ok1; [rewrite loaded_comparison_trace |]; reflexivity.
  - rewrite !written_app, written_comparison_trace, !map_app. fold ok1.
    destruct ok1; [| reflexivity].
    rewrite written_comparison_trace. fold ok2.
    destruct ok2; reflexivity.
Qed.

(** X11: when [run_perceptron] completes, it has read the two datasets in
    order and written one image for each; the figure of a dataset holds the
    single trace of the losses recorded for that dataset alone, whatever
    [losses] held before, because the list starts empty for every dataset. *)
Theorem run_perceptron_writes_two_curves (s s' : State) :
  run_perceptron s = (Done tt, s') ->
  let f1 := "linearly_separable.npy" in
  let f2 := "linearly_inseparable.npy" in
  let fig1 := perceptron_figure "Linearly Separable" f1 in
  let fig2 := perceptron_figure "Linearly Inseparable" f2 in
  loaded (trace s') =
  loaded (trace s) ++ ["../datasets/linearly_separable.npy";
                       "../datasets/linearly_inseparable.npy"] /\
  written (trace s') =
  written (trace s)
  ++ [(fig1, "perceptron_fit_Linearly Separable.png");
      (fig2, "perceptron_fit_Linearly Inseparable.png")] /\
  Fig.data fig1
  = [(loss_trace (recorded_losses f1) "Linearly Separable", None)] /\
  Fig.data fig2
  = [(loss_trace (recorded_losses f2) "Linearly Inseparable", None)] /\
  losses s' = recorded_losses f2.
Proof.
  intros Hrun f1 f2 fig1 fig2.
  rewrite run_perceptron_state in Hrun.
  apply (f_equal snd) in Hrun. cbn [snd] in Hrun. subst s'.
  cbn [trace losses].
  rewrite !loaded_app, !written_app, !loaded_perceptron_calls,
    !written_perceptron_calls.
  repeat split.
Qed.

(** X12: the script runs the Perceptron pipeline first and the comparison
    after it: when [run_perceptron] completes, the comparison starts from the
    state it reached, by loading [gaussian1.npy]; the two Perceptron images
    are written by then and stay written however the comparison ends. *)
Theorem main_order (s s1 : State) :
  run_perceptron s = (Done tt, s1) ->
  main s = compare_gaussian_classifiers s1 /\
  map snd (written (trace s1)) =
  map snd (written (trace s))
  ++ ["perceptron_fit_Linearly Separable.png";
      "perceptron_fit_Linearly Inseparable.png"] /\
  exists later,
    trace (snd (main s)) = trace s1 ++ later /\
    hd_error later = Some (Call_np_load "../datasets/gaussian1.npy") /\
    written (trace (snd (main s))) = written (trace s1) ++ written later.
Proof.
  intros Hrun.
  assert (Hmain : main s = compare_gaussian_classifiers s1)
    by (unfold main, bind; now rewrite Hrun).
  split; [exact Hmain |]. split.
  - rewrite run_perceptron_state in Hrun.
    apply (f_equal snd) in Hrun. cbn [snd] in Hrun. subst s1.
    cbn [trace].
    rewrite !written_app, !written_perceptron_calls, !map_app. reflexivity.
  - rewrite Hmain, compare_state. cbn [snd trace].
    eexists. split; [reflexivity |]. split; [reflexivity |].
    apply written_app.
Qed.

(** ** load_dataset and the slicing of the array *)

Lemma Int_part_IZR (z : Z) : Int_part (IZR z) = z.
Proof.
  symmetry. apply Int_part_spec. lra.
Qed.

Lemma truncate_IZR (z : Z) : truncate (IZR z) = z.
Proof.
  unfold truncate. destruct (Rle_dec 0 (IZR z)) as [H | H].
  - apply Int_part_IZR.
  - rewrite <- opp_IZR, Int_part_IZR. lia.
Qed.

Lemma truncate_toward_zero (r : R) :
  Rabs (IZR (truncate r)) <= Rabs r /\
  Rabs r < Rabs (IZR (truncate r)) + 1 /\
  0 <= IZR (truncate r) * r.
Proof.
  unfold truncate.
  destruct (Rle_dec 0 r) as [H | H].
  - destruct (base_Int_part r) as [Hle Hgt].
    assert (Hz : (0 <= Int_part r)%Z).
    { apply Z.lt_succ_r, lt_IZR. rewrite succ_IZR. lra. }
    apply IZR_le in Hz.
    rewrite !Rabs_right by lra. nra.
  - assert (Hr : r < 0) by lra.
    destruct (base_Int_part (- r)) as [Hle Hgt].
    assert (Hz : (0 <= Int_part (- r))%Z).
    { apply Z.lt_succ_r, lt_IZR. rewrite succ_IZR. lra. }
    apply IZR_le in Hz. rewrite opp_IZR.
    rewrite (Rabs_left r) by lra.
    rewrite Rabs_left1 by lra. nra.
Qed.

Lemma astype_int_in_range (r : R) :
  (int64_min <= truncate r <= int64_max)%Z -> astype_int r = truncate r.
Proof.
  intros [Hlo Hhi]. unfold astype_int.
  apply Z.leb_le in Hlo, Hhi. now rewrite Hlo, Hhi.
Qed.

Lemma astype_int_IZR (z : Z) :
  (int64_min <= z <= int64_max)%Z -> astype_int (IZR z) = z.
Proof.
  intros Hz. rewrite astype_int_in_range; rewrite truncate_IZR; [reflexivity |].
  exact Hz.
Qed.

Lemma truncate_small (r : R) :
  Rabs r < IZR (2 ^ 63) -> (int64_min <= truncate r <= int64_max)%Z.
Proof.
  intros Hr. destruct (truncate_toward_zero r) as (Hle & _ & _).
  assert (Hk : Rabs (IZR (truncate r)) < IZR (2 ^ 63)) by lra.
  rewrite <- abs_IZR in Hk. apply lt_IZR in Hk.
  unfold int64_min, int64_max. lia.
Qed.

(** X14: the cast gives back every integer of the [int64] range: a class label
    stored as a real is recovered exactly. *)
Theorem astype_int_of_integer (z : Z) :
  (int64_min <= z <= int64_max)%Z -> astype_int (IZR z) = z.
Proof.
  intros Hz. pose proof (astype_int_IZR z Hz) as H.
  unfold astype_int in *. exact H.
Qed.

Lemma astype_int_of_integer_witness :
  (int64_min <= 2 <= int64_max)%Z /\ astype_int (IZR 2) = 2%Z.
Proof.
  assert (H : (int64_min <= 2 <= int64_max)%Z)
    by (unfold int64_min, int64_max; lia).
  split; [exact H | exact (astype_int_of_integer 2 H)].
Defined.

Example astype_int_overflow : astype_int (IZR (2 ^ 63)) = int64_min.
Proof. unfold astype_int. rewrite truncate_IZR. reflexivity. Qed.

(** X15: for an entry of absolute value below 2^63 the cast truncates toward
    zero: the result is no larger in absolute value than the entry, less than
    one away from it, and never of the opposite sign. *)
Theorem astype_int_truncates_toward_zero (r : R) :
  Rabs r < IZR (2 ^ 63) ->
  let k := IZR (astype_int r) in
  Rabs k <= Rabs r /\ Rabs r < Rabs k + 1 /\ 0 <= k * r.
Proof.
  intros Hr k. subst k.
  rewrite astype_int_in_range by now apply truncate_small.
  apply truncate_toward_zero.
Qed.

Lemma astype_int_truncates_toward_zero_witness :
  Rabs (- (3 / 2)) < IZR (2 ^ 63) /\
  0 <= IZR (astype_int (- (3 / 2))) * - (3 / 2).
Proof.
  assert (H : Rabs (- (3 / 2)) < IZR (2 ^ 63)).
  { rewrite Rabs_left by lra. simpl. lra. }
  split; [exact H |].
  destruct (astype_int_truncates_toward_zero (- (3 / 2)) H) as (_ & _ & Hs).
  exact Hs.
Defined.

(** X16: when [load_dataset] returns and the third column of the array holds
    the integers [classes], all in the [int64] range, the result is the first
    two columns and exactly [classes], one label per sample, and a single
    [np.load] was made. *)
Theorem load_dataset_labels (filename : string) (classes : list Z)
        (s s' : State) (X : list (R * R)) (labels : list Z) :
  load_dataset filename s = (Done (X, labels), s') ->
  last_column (np_load filename) = map IZR classes ->
  Forall (fun z => (int64_min <= z <= int64_max)%Z) classes ->
  X = features (np_load filename) /\
  labels = classes /\
  List.length labels = List.length X /\
  trace s' = trace s ++ [Call_np_load filename].
Proof.
  intros Hrun Hcol Hrange.
  unfold load_dataset, load in Hrun. cbv [bind emit ret] in Hrun.
  cbn [trace losses] in Hrun.
  injection Hrun as HX Hlabels Hs'. subst X labels s'.
  rewrite Hcol, map_map.
  assert (Hid : map (fun z => astype_int (IZR z)) classes = classes).
  { clear - Hrange. induction Hrange as [| z zs Hz _ IH]; [reflexivity |].
    cbn [map]. rewrite astype_int_IZR by exact Hz. now rewrite IH. }
  rewrite Hid. cbn [trace].
  split; [reflexivity | split; [reflexivity | split; [| reflexivity]]].
  apply (f_equal (@List.length R)) in Hcol.
  unfold last_column, features in *. rewrite !length_map in *. lia.
Qed.

End PipelineProperties.

Lemma load_dataset_labels_witness :
  let C := sample_collaborators 3 in
  let data := np_load "gaussian1.npy" in
  (load_dataset "gaussian1.npy" initial_state
   = (Done (features data, map astype_int (last_column data)),
      mkState [Call_np_load "gaussian1.npy"] []) /\
   last_column data = map IZR [0; 1; 2]%Z /\
   Forall (fun z => (int64_min <= z <= int64_max)%Z) [0; 1; 2]%Z) /\
  map astype_int (last_column data) = [0; 1; 2]%Z.
Proof.
  intros C data.
  assert (Hrun : load_dataset "gaussian1.npy" initial_state
                 = (Done (features data, map astype_int (last_column data)),
                    mkState [Call_np_load "gaussian1.npy"] []))
    by reflexivity.
  assert (Hcol : last_column data = map IZR [0; 1; 2]%Z) by reflexivity.
  assert (Hrange : Forall (fun z => (int64_min <= z <= int64_max)%Z)
                          [0; 1; 2]%Z)
    by (repeat constructor; unfold int64_min, int64_max; lia).
  split; [repeat split; assumption |].
  destruct (load_dataset_labels (C := C) "gaussian1.npy" [0; 1; 2]%Z
              initial_state _ _ _ Hrun Hcol Hrange) as (_ & Hlabels & _).
  exact Hlabels.
Defined.

Lemma run_perceptron_writes_two_curves_witness :
  let C := sample_collaborators 3 in
  let s' := snd (run_perceptron initial_state) in
  run_perceptron initial_state = (Done tt, s') /\
  losses s' = recorded_losses "linearly_inseparable.npy".
Proof.
  intros C s'.
  assert (Hrun : run_perceptron initial_state = (Done tt, s')) by reflexivity.
  split; [exact Hrun |].
  destruct (run_perceptron_writes_two_curves (C := C) initial_state s' Hrun)
    as (_ & _ & _ & _ & Hlosses).
  exact Hlosses.
Defined.

Lemma main_order_witness :
  let C := sample_collaborators 3 in
  let s1 := snd (run_perceptron initial_state) in
  run_perceptron initial_state = (Done tt, s1) /\
  main initial_state = compare_gaussian_classifiers s1.
Proof.
  intros C s1.
  assert (Hrun : run_perceptron initial_state = (Done tt, s1)) by reflexivity.
  split; [exact Hrun |].
  destruct (main_order (C := C) initial_state s1 Hrun) as [Hmain _].
  exact Hmain.
Defined.

Lemma combine_fst_snd {A B} (l : list (A * B)) :
  combine (map fst l) (map snd l) = l.
Proof.
  induction l as [| [a b] l IH]; simpl; [reflexivity | now rewrite IH].
Qed.

(** X17: slicing the loaded array into [data[:, :-1]] and [data[:, -1]] keeps
    one feature row and one label per sample, in the same order: pairing them
    again gives the array back. *)
Theorem dataset_split_aligned (data : list Row) :
  List.length (features data) = List.length data /\
  List.length (last_column data) = List.length data /\
  combine (features data) (last_column data) = data.
Proof.
  unfold features, last_column. rewrite !length_map.
  split; [reflexivity | split; [reflexivity | apply combine_fst_snd]].
Qed.

(** ** File names *)

Lemma string_length_append (a b : string) :
  String.length (a ++ b) = (String.length a + String.length b)%nat.
Proof. induction a as [| c a IH]; simpl; [reflexivity | now rewrite IH]. Qed.

Lemma substring_0_0 (s : string) : substring 0 0 s = "".
Proof. now destruct s. Qed.

Lemma substring_prefix (a b : string) :
  substring 0 (String.length a) (a ++ b) = a.
Proof.
  induction a as [| c a IH]; simpl; [apply substring_0_0 | now rewrite IH].
Qed.

Lemma substring_all (a : string) : substring 0 (String.length a) a = a.
Proof. induction a as [| c a IH]; simpl; [reflexivity | now rewrite IH]. Qed.

(** X13: [f[:-4]] removes a four-character extension such as [.npy] and
    leaves the rest of the name. *)
Theorem drop_last4_extension (stem ext : string) :
  String.length ext = 4%nat ->
  drop_last4 (stem ++ ext) = stem.
Proof.
  intros H. unfold drop_last4.
  rewrite string_length_append, H, Nat.add_sub. apply substring_prefix.
Qed.

Lemma drop_last4_extension_witness :
  String.length ".npy" = 4%nat /\ drop_last4 ("gaussian1" ++ ".npy") = "gaussian1".
Proof.
  assert (H : String.length ".npy" = 4%nat) by reflexivity.
  split; [exact H | exact (drop_last4_extension "gaussian1" ".npy" H)].
Defined.

(** X18: for a name of at most four characters [f[:-4]] is the empty
    string. *)
Theorem drop_last4_short (f : string) :
  (String.length f <= 4)%nat -> drop_last4 f = "".
Proof.
  intros H. unfold drop_last4.
  replace (String.length f - 4)%nat with 0%nat by lia. apply substring_0_0.
Qed.

Lemma drop_last4_short_witness :
  (String.length "npy" <= 4)%nat /\ drop_last4 "npy" = "".
Proof.
  assert (H : (String.length "npy" <= 4)%nat) by (simpl; lia).
  split; [exact H | exact (drop_last4_short "npy" H)].
Defined.

(** ** Edge cases *)

(** X19: for the zero covariance both axes are 0 and the curve degenerates:
    all 100 points are the mean itself. *)
Theorem get_ellipse_zero_covariance (mu : R * R) :
  ellipse_axes (Np.mkMatrix2 0 0 0 0) = (0, 0) /\
  Go.points (get_ellipse mu (Np.mkMatrix2 0 0 0 0)) = repeat mu 100.
Proof.
  assert (Hax : ellipse_axes (Np.mkMatrix2 0 0 0 0) = (0, 0))
    by exact (circle_axes 0).
  split; [exact Hax |].
  rewrite get_ellipse_points, Hax; cbn [fst snd].
  assert (Hpt : forall theta ti, ellipse_point mu 0 0 theta ti = mu).
  { intros theta ti. unfold ellipse_point. destruct mu as [a b]; cbn [fst snd].
    f_equal; ring. }
  rewrite (map_ext _ (fun _ => mu) (Hpt _)).
  rewrite <- (linspace_length 0 (2 * PI) 100) at 2.
  generalize (Np.linspace 0 (2 * PI) 100) as t.
  induction t as [| ti t IH]; [reflexivity | simpl; now rewrite IH].
Qed.

(** X20: the image of a comparison does not depend on the predictions or on
    the accuracies: two sets of collaborators that load the same array and fit
    the same models make the comparison end the same way and write the same
    figure under the same name. *)
Theorem comparison_image_ignores_predictions (C1 C2 : Collaborators)
        (f : string) (s : State) :
  np_load (Collaborators := C1) ("../datasets/" ++ f)
  = np_load (Collaborators := C2) ("../datasets/" ++ f) ->
  fitted_gnb (C := C1) f = fitted_gnb (C := C2) f ->
  fitted_lda (C := C1) f = fitted_lda (C := C2) f ->
  fst (compare_gaussian_classifiers_on (C := C1) f s)
  = fst (compare_gaussian_classifiers_on (C := C2) f s) /\
  written (trace (snd (compare_gaussian_classifiers_on (C := C1) f s)))
  = written (trace (snd (compare_gaussian_classifiers_on (C := C2) f s))).
Proof.
  intros Hload Hgnb Hlda.
  rewrite !compare_on_run; cbn [fst snd trace].
  rewrite !written_app, !written_comparison_trace, Hgnb, Hlda.
  split; [reflexivity |].
  assert (Hfig : comparison_figure (C := C1) f = comparison_figure (C := C2) f).
  { unfold comparison_figure.
    change (gnb_fit (Collaborators := C1)
              (features (np_load (Collaborators := C1) ("../datasets/" ++ f)))
              (last_column (np_load (Collaborators := C1) ("../datasets/" ++ f))))
      with (fitted_gnb (C := C1) f).
    change (lda_fit (Collaborators := C1)
              (features (np_load (Collaborators := C1) ("../datasets/" ++ f)))
              (last_column (np_load (Collaborators := C1) ("../datasets/" ++ f))))
      with (fitted_lda (C := C1) f).
    change (gnb_fit (Collaborators := C2)
              (features (np_load (Collaborators := C2) ("../datasets/" ++ f)))
              (last_column (np_load (Collaborators := C2) ("../datasets/" ++ f))))
      with (fitted_gnb (C := C2) f).
    change (lda_fit (Collaborators := C2)
              (features (np_load (Collaborators := C2) ("../datasets/" ++ f)))
              (last_column (np_load (Collaborators := C2) ("../datasets/" ++ f))))
      with (fitted_lda (C := C2) f).
    cbv zeta. rewrite Hload, Hgnb, Hlda. reflexivity. }
  rewrite Hfig. reflexivity.
Qed.

Lemma comparison_image_ignores_predictions_witness :
  let C1 := sample_collaborators 3 in
  let C2 := {|
    np_load := np_load (Collaborators := C1);
    Perceptron := unit;
    perceptron_iterations := fun _ _ => [];
    perceptron_loss := fun _ _ _ => 1;
    lda_fit := lda_fit (Collaborators := C1);
    lda_predict := fun _ X => map (fun _ => 2) X;
    gnb_fit := gnb_fit (Collaborators := C1);
    gnb_predict := fun _ X => map (fun _ => 1) X;
    accuracy := fun _ _ => 0
  |} in
  (np_load (Collaborators := C1) ("../datasets/" ++ "gaussian1.npy")
   = np_load (Collaborators := C2) ("../datasets/" ++ "gaussian1.npy") /\
   fitted_gnb (C := C1) "gaussian1.npy" = fitted_gnb (C := C2) "gaussian1.npy" /\
   fitted_lda (C := C1) "gaussian1.npy" = fitted_lda (C := C2) "gaussian1.npy")
  /\
  written (trace (snd (compare_gaussian_classifiers_on
                         (C := C1) "gaussian1.npy" initial_state)))
  = written (trace (snd (compare_gaussian_classifiers_on
                           (C := C2) "gaussian1.npy" initial_state))).
Proof.
  intros C1 C2.
  assert (Hload : np_load (Collaborators := C1) ("../datasets/" ++ "gaussian1.npy")
                  = np_load (Collaborators := C2)
                            ("../datasets/" ++ "gaussian1.npy")) by reflexivity.
  assert (Hgnb : fitted_gnb (C := C1) "gaussian1.npy"
                 = fitted_gnb (C := C2) "gaussian1.npy") by reflexivity.
  assert (Hlda : fitted_lda (C := C1) "gaussian1.npy"
                 = fitted_lda (C := C2) "gaussian1.npy") by reflexivity.
  split; [repeat split; assumption |].
  destruct (comparison_image_ignores_predictions
              C1 C2 "gaussian1.npy" initial_state Hload Hgnb Hlda) as [_ H].
  exact H.
Defined.
